(** * bee_py: the Bee wrapper, feed retrievability and the SOC / feed-index codecs

  A shallow embedding of [src/bee_py/bee.py] (class [Bee]) and of the helpers
  of [src/bee_py/utils/type.py] it calls, in the exception monad of Python
  calls.  The collaborators that [bee.py] imports from modules that are not
  part of the sources at hand ([bee_py.feed.*], [bee_py.chunk.*],
  [bee_py.types.type], the HTTP modules) are parameters of the wrapper;
  the feed-index codec, the sequential retrievability scan and the SOC codec
  are additionally modelled from the specification, in modules of their own. *)

From Stdlib Require Import ZArith List String Bool Lia.
From Stdlib.Strings Require Import Byte.
From stdpp Require Import base option list strings gmap.
Import ListNotations.

Local Open Scope string_scope.
Local Open Scope list_scope.
Local Open Scope Z_scope.

(** ** Python calls: exceptions and results *)

Module Py.

(** The exception classes that [bee.py] and [utils/type.py] raise or let
    through.  [BeeArgumentError] derives from [BeeError]
    ([bee_py.utils.error]); [OtherError] stands for the exceptions of the
    collaborators (requests' [HTTPError], pydantic's [ValidationError]). *)
Inductive exn : Type :=
| TypeError
| ValueError
| AttributeError
| BeeError
| BeeArgumentError
| OtherError (cls : string).

Inductive result (A : Type) : Type :=
| Ok (a : A)
| Raise (e : exn).
Arguments Ok {A} a.
Arguments Raise {A} e.

#[global] Instance result_ret : MRet result := fun A a => Ok a.
#[global] Instance result_bind : MBind result := fun A B f m =>
  match m with
  | Ok a => f a
  | Raise e => Raise e
  end.

(** [isinstance(e, BeeError)]. *)
Definition isinstance_BeeError (e : exn) : bool :=
  match e with
  | BeeError | BeeArgumentError => true
  | _ => false
  end.

(** [try: body  except BeeError as e: handler(e)]: the handler runs for
    [BeeError] and its subclasses, any other exception passes through. *)
Definition try_except_BeeError {A} (body : result A) (handler : exn -> result A)
  : result A :=
  match body with
  | Ok a => Ok a
  | Raise e => if isinstance_BeeError e then handler e else Raise e
  end.

(** The call returns, with some value. *)
Definition returns {A} (r : result A) : Prop := exists a, r = Ok a.

End Py.
Import Py.

(** ** Constants of [bee_py.types.type] *)

(** Modelled from the spec: [SPAN_SIZE] and [CHUNK_SIZE] are declared in
  [bee_py/types/type.py], which is not among the sources; the data model
  gives the span as 8 bytes and the payload as at most 4096 bytes. *)
Definition SPAN_SIZE : Z := 8.
Definition CHUNK_SIZE : Z := 4096.

(** Modelled from the spec: [FeedType], an [Enum] of [bee_py/types/type.py],
    has the two members the design notes name, [sequence] and [epoch]. *)
Inductive FeedType : Type := SEQUENCE | EPOCH.

#[global] Instance FeedType_eq_dec : EqDecision FeedType.
Proof. solve_decision. Defined.

(** ** Python values the wrapper receives *)

(** A [Union[bytes, str]] argument: topics and owner addresses, raw or in
    canonical form. *)
Inductive bytes_or_str : Type :=
| Bytes (b : list byte)
| Str (s : string).

(** The [data] argument of [upload_chunk]: a [bytes] object or anything else. *)
Inductive data_arg : Type :=
| DataBytes (b : list byte)
| DataOther.

(** [Optional[Union[Index, IndexBytes]]]: no index, a sequence number, or the
    index bytes. *)
Inductive index_arg : Type :=
| IndexNone
| IndexInt (n : Z)
| IndexBytes (b : list byte).

(** Modelled from the spec: the signer interface of [bee_py/types/type.py]
    (4.2): an address and a signing function over digests. *)
Record Signer : Type := mkSigner {
  address : list byte;
  sign : list byte -> list byte
}.

(** [Optional[Union[Signer, bytes, str]]]. *)
Inductive signer_arg : Type :=
| SignerNone
| SignerObj (s : Signer)
| SignerBytes (b : list byte)
| SignerStr (s : string).

(** A feed type as passed by a caller: a member of the enum or a string. *)
Inductive feed_type_arg : Type :=
| FtMember (m : FeedType)
| FtStr (s : string).

(** What [_make_feed_reader] receives as its type: [is_feed_retrievable]
    passes the builtin [type], not its [feed_type] parameter. *)
Inductive reader_type_arg : Type :=
| BuiltinType
| ReaderFeedType (ft : feed_type_arg).

(** [BeeRequestOptions] of [bee_py/types/type.py]: the two fields that
    [assert_request_options] reads. *)
Record BeeRequestOptions : Type := mkRequestOptions {
  retry : option Z;
  timeout : option Z
}.

(** An [options] argument: [None], a [BeeRequestOptions], a [dict] (its keys
    and integer values), or an object of another class. *)
Inductive options_arg : Type :=
| OptNone
| OptModel (o : BeeRequestOptions)
| OptDict (d : list (string * Z))
| OptOther.

(** [len(b)] of a [bytes] object. *)
Definition py_len (b : list byte) : Z := Z.of_nat (length b).

(** Python truth values, as the [if x:] and [if not x:] tests read them:
    [None], [0] and empty [bytes], [str] and [dict] objects are false. *)
Definition index_truthy (i : index_arg) : bool :=
  match i with
  | IndexNone => false
  | IndexInt n => negb (n =? 0)
  | IndexBytes b => negb (py_len b =? 0)
  end.

Definition signer_truthy (s : signer_arg) : bool :=
  match s with
  | SignerNone => false
  | SignerObj _ => true
  | SignerBytes b => negb (py_len b =? 0)
  | SignerStr s => negb (String.eqb s "")
  end.

Definition options_truthy (o : options_arg) : bool :=
  match o with
  | OptNone => false
  | OptModel _ => true
  | OptDict d => match d with [] => false | _ :: _ => true end
  | OptOther => true
  end.

(** ** The collaborators of [bee.py]

    The functions [bee.py] imports from modules whose sources are not at
    hand, with the results a Python call can have. *)

(** [FeedReader]: the [download] method is all the wrapper calls. *)
Record FeedReader : Type := mkFeedReader {
  download : options_arg -> result string
}.

(** [FeedWriter]: a reader that can also [upload] a reference under a
    postage batch. *)
Record FeedWriter : Type := mkFeedWriter {
  writer_download : options_arg -> result string;
  writer_upload : string -> string -> result string
}.

(** The positional arguments that follow the topic in a call of
    [_make_feed_reader]: an owner address, or what [make_feed_reader] passes. *)
Inductive positional_arg : Type :=
| ArgAddress (a : bytes_or_str)
| ArgSigner (s : signer_arg).

(** The request options of a call: the instance's own, or the instance's
    merged with the call's ([{**self.request_options, **options}]). *)
Inductive call_options : Type :=
| CallDefault (own : BeeRequestOptions)
| CallMerged (own : BeeRequestOptions) (extra : options_arg).

Class Collaborators : Type := {
  (* [bee_py.feed.topic.make_topic] *)
  make_topic : bytes_or_str -> result bytes_or_str;
  (* [bee_py.utils.eth.make_eth_address], [make_hex_eth_address] *)
  make_eth_address : bytes_or_str -> result bytes_or_str;
  make_hex_eth_address : bytes_or_str -> result bytes_or_str;
  (* [bee_py.feed.feed.make_feed_reader], imported as [_make_feed_reader] *)
  _make_feed_reader :
    call_options -> reader_type_arg -> bytes_or_str -> list positional_arg -> result FeedReader;
  (* [bee_py.feed.feed.make_feed_writer], imported as [_make_feed_writer] *)
  _make_feed_writer :
    call_options -> reader_type_arg -> bytes_or_str -> signer_arg -> result FeedWriter;
  (* [bee_py.feed.retrievable.are_all_sequential_feeds_update_retrievable] *)
  are_all_sequential_feeds_update_retrievable :
    bytes_or_str -> bytes_or_str -> index_arg -> call_options -> result bool;
  (* [bee_py.modules.chunk.upload], imported as [chunk_api.upload] *)
  chunk_api_upload :
    call_options -> list byte -> string -> options_arg -> result string;
  (* [BeeRequestOptions.model_validate] and [UploadOptions.model_validate]
      of pydantic *)
  model_validate : list (string * Z) -> result BeeRequestOptions;
  (* whether the members of [FeedType] are instances of [str]
      ([class FeedType(str, Enum)]) *)
  FeedType_is_str : bool;
  (* the rest of [assert_upload_options], after [assert_request_options] *)
  assert_upload_fields : options_arg -> result unit
}.

(** ** [bee_py/utils/type.py] *)

(** [member.value] for the members of [FeedType]. *)
Definition FeedType_value (m : FeedType) : string :=
  match m with
  | SEQUENCE => "sequence"
  | EPOCH => "epoch"
  end.

Section UtilsType.
Context `{Collaborators}.

(** [isinstance(_type, str) and _type in [member.value for member in FeedType]] *)
Definition is_feed_type (_type : feed_type_arg) : bool :=
  match _type with
  | FtStr s =>
      existsb (String.eqb s) (map FeedType_value [SEQUENCE; EPOCH])
  | FtMember m =>
      FeedType_is_str
      && existsb (String.eqb (FeedType_value m)) (map FeedType_value [SEQUENCE; EPOCH])
  end.

Definition assert_feed_type (_type : feed_type_arg) : result unit :=
  if negb (is_feed_type _type) then Raise TypeError else Ok tt.

(** The two field checks of [assert_request_options]: a value that is set
    and not zero has to be a non-negative integer. *)
Definition check_non_negative (field : option Z) : result unit :=
  match field with
  | Some n => if negb (n =? 0) && (n <? 0) then Raise BeeArgumentError else Ok tt
  | None => Ok tt
  end.

Definition assert_request_options (options : options_arg) : result unit :=
  match options with
  | OptNone => Ok tt
  | OptOther => Raise TypeError
  | OptModel o =>
      _ ← check_non_negative (retry o);
      check_non_negative (timeout o)
  | OptDict d =>
      o ← model_validate d;
      _ ← check_non_negative (retry o);
      check_non_negative (timeout o)
  end.

Definition assert_upload_options (value : options_arg) : result unit :=
  _ ← assert_request_options value;
  assert_upload_fields value.

End UtilsType.

(** ** [class Bee] *)

(** [BeeArgumentError(...)] of [bee_py/utils/error.py]: the class takes the
    message and the offending value, as every [raise] of [utils/type.py]
    builds it ([BeeArgumentError(msg, options.retry)]).  Built from the
    message alone the construction itself fails, and what the [raise]
    statement lets out is the [TypeError] of the missing argument. *)
Definition construct_BeeArgumentError (arguments : nat) : exn :=
  match arguments with
  | 2%nat => BeeArgumentError
  | _ => TypeError
  end.

Module Bee.

(** An instance: [url] and [request_options] are always assigned by
    [__init__], [signer] only when the options carry one; the class body
    only annotates it, so without the assignment the attribute does not
    exist. *)
Record t : Type := mk {
  url : string;
  signer : option signer_arg;
  request_options : BeeRequestOptions
}.

(** The names the class body defines, as written after [def]. *)
Definition defs : list string :=
  [ "__init__"; "__get_request_options_for_call"; "__make_feed_reader";
    "___resolve_signer"; "make_feed_topic"; "upload_data"; "download_data";
    "download_readable_data"; "upload_chunk"; "download_chunk"; "upload_file";
    "download_file"; "download_readable_file"; "upload_files";
    "upload_collection"; "upload_files_from_directory"; "create_tag";
    "get_all_tags"; "delete_tag"; "update_tag"; "pin"; "unpin"; "get_all_pins";
    "get_pin"; "reupload_pinned_data"; "is_reference_retrievable";
    "is_feed_retrievable"; "pss_send"; "pss_subscribe"; "pss_receive";
    "create_feed_manifest"; "make_feed_reader"; "make_feed_writer";
    "set_json_feed"; "get_json_feed"; "make_soc_reader"; "make_soc_writer";
    "check_connection"; "is_connected" ].

Definition ends_with (suffix s : string) : bool :=
  String.eqb
    (String.substring (String.length s - String.length suffix)
       (String.length suffix) s)
    suffix
  && (String.length suffix <=? String.length s)%nat.

(** Python's private name mangling inside [class Bee]: an identifier that
    starts with two underscores and does not end with two is prefixed with
    [_Bee]. *)
Definition mangle (name : string) : string :=
  if String.prefix "__" name && negb (ends_with "__" name)
  then ("_Bee" ++ name)%string
  else name.

Definition class_dict : list string := map mangle defs.

Definition instance_dict (self : t) : list string :=
  [ "url"; "request_options" ]
  ++ match signer self with Some _ => [ "signer" ] | None => [] end.

(** [self.<name>] written inside the class body: the name is mangled, then
    looked up on the instance and on the class ([Bee] has no base class and
    no [__getattr__]; the attributes every object has are all dunder names). *)
Definition getattr (self : t) (name : string) : result string :=
  let attr := mangle name in
  if existsb (String.eqb attr) (instance_dict self ++ class_dict)
  then Ok attr
  else Raise AttributeError.

(** [self.signer]. *)
Definition get_signer (self : t) : result signer_arg :=
  _ ← getattr self "signer";
  match signer self with
  | Some s => Ok s
  | None => Raise AttributeError
  end.

Section Methods.
Context `{Collaborators}.

(** [__get_request_options_for_call]: without options of the call, the
    instance's own are returned.  For options that read as true the method
    evaluates [{**self.request_options, **options}]; [self.request_options]
    is the object that [BeeRequestOptions.model_validate] returned in
    [__init__], not a mapping, so the unpacking raises [TypeError]. *)
Definition __get_request_options_for_call (self : t) (options : options_arg)
  : result call_options :=
  if options_truthy options
  then Raise TypeError
  else Ok (CallDefault (request_options self)).

Definition __make_feed_reader (self : t) (feed_type : reader_type_arg)
    (topic owner : bytes_or_str) (options : options_arg) : result FeedReader :=
  _ ← assert_request_options options;
  canonical_topic ← make_topic topic;
  canonical_owner ← make_hex_eth_address owner;
  request_options ← __get_request_options_for_call self options;
  _make_feed_reader request_options feed_type canonical_topic
    [ ArgAddress canonical_owner ].

Definition ___resolve_signer (self : t) (signer : signer_arg) : result signer_arg :=
  if signer_truthy signer then Raise ValueError
  else
    default ← get_signer self;
    if signer_truthy default then Ok default
    else Ok SignerNone.

(** Calling a looked-up attribute with one signer argument; of the methods
    of the class only [___resolve_signer] has that signature. *)
Definition call_with_signer (self : t) (attr : string) (signer : signer_arg)
  : result signer_arg :=
  if String.eqb attr "_Bee___resolve_signer"
  then ___resolve_signer self signer
  else Raise TypeError.

Definition upload_chunk (self : t) (postage_batch_id : string) (data : data_arg)
    (options request_options : options_arg) : result string :=
  match data with
  | DataOther => Raise TypeError
  | DataBytes b =>
      if py_len b <? SPAN_SIZE then Raise (construct_BeeArgumentError 1)
      else if py_len b >? CHUNK_SIZE + SPAN_SIZE
      then Raise (construct_BeeArgumentError 1)
      else
        _ ← match options with
            | OptNone => Ok tt
            | _ => assert_upload_options options
            end;
        call_options ← __get_request_options_for_call self request_options;
        chunk_api_upload call_options b postage_batch_id options
  end.

(** [feed_type != FeedType.SEQUENCE]: a string equals the member only when
    the members are strings themselves. *)
Definition ne_SEQUENCE (feed_type : feed_type_arg) : bool :=
  match feed_type with
  | FtMember m => bool_decide (m ≠ SEQUENCE)
  | FtStr s => negb (FeedType_is_str && String.eqb s (FeedType_value SEQUENCE))
  end.

Definition is_feed_retrievable (self : t) (feed_type : feed_type_arg)
    (owner topic : bytes_or_str) (index : index_arg) (options : options_arg)
  : result bool :=
  canonical_owner ← make_eth_address owner;
  canonical_topic ← make_topic topic;
  if negb (index_truthy index) then
    try_except_BeeError
      (reader ← __make_feed_reader self BuiltinType canonical_topic
                  canonical_owner OptNone;
       _ ← download reader options;
       Ok true)
      (fun e => Raise e)
  else if ne_SEQUENCE feed_type then Raise BeeError
  else
    request_options ← __get_request_options_for_call self options;
    are_all_sequential_feeds_update_retrievable canonical_owner canonical_topic
      index request_options.

Definition make_feed_reader (self : t) (feed_type : feed_type_arg)
    (topic : bytes_or_str) (signer : signer_arg) (options : options_arg)
  : result FeedReader :=
  _ ← assert_feed_type feed_type;
  _ ← assert_request_options options;
  canonical_topic ← make_topic topic;
  resolve_signer ← getattr self "resolve_signer";
  canonical_singer ← call_with_signer self resolve_signer signer;
  request_options ← __get_request_options_for_call self options;
  _make_feed_reader request_options BuiltinType canonical_topic
    [ ArgSigner canonical_singer; ArgSigner canonical_singer ].

Definition make_feed_writer (self : t) (feed_type : feed_type_arg)
    (topic : bytes_or_str) (signer : signer_arg) (options : options_arg)
  : result FeedWriter :=
  _ ← assert_request_options options;
  _ ← assert_feed_type feed_type;
  canonical_topic ← make_topic topic;
  resolve_signer ← getattr self "resolve_signer";
  canonical_singer ← call_with_signer self resolve_signer signer;
  request_options ← __get_request_options_for_call self options;
  _make_feed_writer request_options BuiltinType canonical_topic canonical_singer.

End Methods.

End Bee.

(** ** Bytes and big-endian integers *)

#[global] Instance byte_eq_dec : EqDecision byte := Byte.byte_eq_dec.

#[global] Instance byte_countable : Countable byte :=
  inj_countable Byte.to_N Byte.of_N Byte.of_to_N.

Definition byte_of_Z (z : Z) : byte :=
  default x00 (Byte.of_N (Z.to_N (z mod 256))).

Definition Z_of_byte (b : byte) : Z := Z.of_N (Byte.to_N b).

(** The [w] low bytes of [n], most significant first: [n.to_bytes(w, "big")]
    for an [n] that fits in [w] bytes. *)
Fixpoint be_bytes (w : nat) (n : Z) : list byte :=
  match w with
  | O => []
  | S w' => byte_of_Z (Z.shiftr n (8 * Z.of_nat w')) :: be_bytes w' n
  end.

(** [int.from_bytes(bs, "big")]. *)
Definition be_value (bs : list byte) : Z :=
  fold_left (fun acc b => acc * 256 + Z_of_byte b) bs 0.

(** ** The specification's core, where the sources are not at hand *)

(** The hashing engine and the signature recovery of the signer component
    (spec, 4.1 and 4.2): Keccak-256 and secp256k1 recovery in the
    implementation, any functions here. *)
Class Primitives : Type := {
  keccak256 : list byte -> list byte;
  recover_address : list byte -> list byte -> list byte
}.

Module FeedSpec.

(** The error taxonomy of the specification (section 7). *)
Inductive error : Type :=
| SizeError
| InvalidKeyError
| SignatureMismatchError
| UnsupportedFeedTypeError
| UnsupportedOperationError
| ChunkNotFoundError
| TransportError.

(** Modelled from the spec: the feed index (data model, row Index), declared
    in [bee_py/types/type.py]: a sequence number or an epoch. *)
Inductive Index : Type :=
| Sequence (n : Z)
| Epoch (base level : Z).

(** A sequence number is an unsigned 64-bit integer; an epoch has a [uint64]
    base and a [uint8] level. *)
Definition valid_index (x : Index) : Prop :=
  match x with
  | Sequence n => 0 <= n < 2 ^ 64
  | Epoch base level => 0 <= base < 2 ^ 64 /\ 0 <= level < 2 ^ 8
  end.

Definition tag (x : Index) : string :=
  match x with
  | Sequence _ => "sequence"
  | Epoch _ _ => "epoch"
  end.

(** Modelled from the spec: the feed index codec of [bee_py/feed] (4.4 and
    the wire formats of section 6).  Sequence: an 8-byte big-endian value
    left-padded with zeros to 32 bytes.  Epoch: base (8 bytes, big-endian),
    level (1 byte), zero padding (23 bytes). *)
Definition encode (x : Index) : list byte :=
  match x with
  | Sequence n => repeat x00 24 ++ be_bytes 8 n
  | Epoch base level => be_bytes 8 base ++ [ byte_of_Z level ] ++ repeat x00 23
  end.

(** Modelled from the spec: decoding reads the fields back from the fixed
    layout, by feed type; any other tag is an [UnsupportedFeedTypeError]. *)
Definition decode (feed_type : string) (bs : list byte) : error + Index :=
  if String.eqb feed_type "sequence" then inr (Sequence (be_value bs))
  else if String.eqb feed_type "epoch" then
    inr (Epoch (be_value (firstn 8 bs)) (Z_of_byte (nth 8 bs x00)))
  else inl UnsupportedFeedTypeError.

Section Addresses.
Context `{Primitives}.

(** Modelled from the spec: feed identifier = hash(index-bytes ‖ topic)
    (data model). *)
Definition feed_identifier (topic : list byte) (index : Index) : list byte :=
  keccak256 (encode index ++ topic).

(** Modelled from the spec: SOC address = hash(identifier ‖ owner). *)
Definition soc_address (identifier owner : list byte) : list byte :=
  keccak256 (identifier ++ owner).

(** Modelled from the spec: the address of the update of a sequence feed at
    index [i], a function of (index, topic, owner) only. *)
Definition update_address (owner topic : list byte) (i : Z) : list byte :=
  soc_address (feed_identifier topic (Sequence i)) owner.

(** The transport collaborator's [exists], on a node that holds the chunks
    of [store]. *)
Definition chunk_exists (store : gset (list byte)) (a : list byte) : bool :=
  bool_decide (a ∈ store).

(** The update at index [i] of the feed is on the node. *)
Definition present (store : gset (list byte)) (owner topic : list byte) (i : Z)
  : Prop :=
  chunk_exists store (update_address owner topic i) = true.

(** Modelled from the spec: the prefix scan of the retrievability verifier
    (4.6), [are_all_sequential_feeds_update_retrievable] of
    [bee_py/feed/retrievable.py]: query the indices in order and stop at the
    first that is missing.  The result comes with the indices queried. *)
Fixpoint scan (store : gset (list byte)) (owner topic : list byte)
    (indices : list Z) : bool * list Z :=
  match indices with
  | [] => (true, [])
  | i :: rest =>
      if chunk_exists store (update_address owner topic i)
      then let (r, queried) := scan store owner topic rest in (r, i :: queried)
      else (false, [ i ])
  end.

(** The indices from 0 up to [target] inclusive. *)
Definition indices_up_to (target : Z) : list Z :=
  map Z.of_nat (seq 0 (Z.to_nat (target + 1))).

(** Modelled from the spec: the verdict of the scan up to [target]. *)
Definition all_retrievable (store : gset (list byte)) (owner topic : list byte)
    (target : Z) : bool :=
  fst (scan store owner topic (indices_up_to target)).

Definition queried (store : gset (list byte)) (owner topic : list byte)
    (target : Z) : list Z :=
  snd (scan store owner topic (indices_up_to target)).

End Addresses.

End FeedSpec.

(** Modelled from the spec: the SOC codec (4.3) of [bee_py/chunk/soc.py]. *)
Module Soc.

Import FeedSpec.

(** A signed SOC, and the address under which it is claimed to live. *)
Record SignedSOC : Type := mkSOC {
  signature : list byte;
  identifier : list byte;
  wrapped_address : list byte;
  claimed_address : list byte
}.

Section Codec.
Context `{Primitives}.

(** Modelled from the spec: [build] signs the digest of
    identifier ‖ chunk_address and computes hash(identifier ‖ owner). *)
Definition build (identifier chunk_address : list byte) (signer : Signer)
  : SignedSOC :=
  {| signature := sign signer (keccak256 (identifier ++ chunk_address));
     identifier := identifier;
     wrapped_address := chunk_address;
     claimed_address := soc_address identifier (address signer) |}.

(** Modelled from the spec: [verify] recovers the owner from the signature
    and confirms hash(identifier ‖ recovered_owner) == claimed address. *)
Definition verify (soc : SignedSOC) : error + list byte :=
  let owner :=
    recover_address (keccak256 (identifier soc ++ wrapped_address soc))
      (signature soc) in
  if bool_decide (soc_address (identifier soc) owner = claimed_address soc)
  then inr owner
  else inl SignatureMismatchError.

(** The contract of a recoverable signature (4.2): recovery from a digest and
    the signer's signature over it gives the signer's address. *)
Definition recoverable (signer : Signer) : Prop :=
  forall m, recover_address (keccak256 m) (sign signer (keccak256 m)) = address signer.

End Codec.

End Soc.

(** ** A node to run the wrapper against

    Test doubles for the collaborators: canonical forms are the values
    themselves, the hash is the identity, a signature carries the signer's
    address, and the node holds the chunks of [store] and answers a download
    of the latest update with [latest]. *)

Module Mock.

Import FeedSpec.

Definition primitives : Primitives := {|
  keccak256 := fun bs => bs;
  recover_address := fun _ sig => firstn 20 sig
|}.

Definition signer_of (addr : list byte) : Signer :=
  {| address := addr; sign := fun _ => addr ++ repeat x00 45 |}.

Definition alice : Signer := signer_of (repeat x01 20).

Definition raw (v : bytes_or_str) : list byte :=
  match v with
  | Bytes b => b
  | Str s => list_byte_of_string s
  end.

Definition field (key : string) (d : list (string * Z)) : option Z :=
  snd <$> find (fun kv => String.eqb (fst kv) key) d.

#[local] Existing Instance primitives.

Definition node (store : gset (list byte)) (latest : result string)
  : Collaborators := {|
  make_topic := fun t => Ok t;
  make_eth_address := fun a => Ok a;
  make_hex_eth_address := fun a => Ok a;
  _make_feed_reader := fun _ _ _ _ => Ok {| download := fun _ => latest |};
  _make_feed_writer := fun _ _ _ _ =>
    Ok {| writer_download := fun _ => latest;
          writer_upload := fun _ reference => Ok reference |};
  are_all_sequential_feeds_update_retrievable := fun owner topic index _ =>
    match index with
    | IndexNone => Raise TypeError
    | IndexInt n => Ok (all_retrievable store (raw owner) (raw topic) n)
    | IndexBytes b => Ok (all_retrievable store (raw owner) (raw topic) (be_value b))
    end;
  chunk_api_upload := fun _ _ _ _ => Ok "reference";
  model_validate := fun d =>
    Ok {| retry := field "retry" d; timeout := field "timeout" d |};
  FeedType_is_str := true;
  assert_upload_fields := fun _ => Ok tt
|}.

Definition bee : Bee.t :=
  {| Bee.url := "http://localhost:1633";
     Bee.signer := None;
     Bee.request_options := {| retry := None; timeout := None |} |}.

Definition owner : bytes_or_str := Bytes (repeat x01 20).
Definition topic : bytes_or_str := Bytes (repeat x02 32).

(** The node after a writer published the sequence indices [0], [1], [2]. *)
Definition published : gset (list byte) :=
  list_to_set (map (update_address (raw owner) (raw topic)) [ 0; 1; 2 ]).

End Mock.

(** Replacing the prefix scan among the collaborators. *)
Definition with_scan (C : Collaborators)
    (scan : bytes_or_str -> bytes_or_str -> index_arg -> call_options -> result bool)
  : Collaborators := {|
  make_topic := @make_topic C;
  make_eth_address := @make_eth_address C;
  make_hex_eth_address := @make_hex_eth_address C;
  _make_feed_reader := @_make_feed_reader C;
  _make_feed_writer := @_make_feed_writer C;
  are_all_sequential_feeds_update_retrievable := scan;
  chunk_api_upload := @chunk_api_upload C;
  model_validate := @model_validate C;
  FeedType_is_str := @FeedType_is_str C;
  assert_upload_fields := @assert_upload_fields C
|}.

(** ** More of [bee_py/utils/type.py]

    The validators over arguments annotated [Any], and the ones of the
    option classes that [bee.py] and the debug modules hand to them. *)

(** A Python value as the [isinstance] and truth tests of the validators
    see it; [VOther] is an object of any other class, with its truth value. *)
Inductive py_value : Type :=
| VNone
| VBool (b : bool)
| VInt (n : Z)
| VStr (s : string)
| VBytes (b : list byte)
| VOther (truthy : bool).

Definition py_truthy (v : py_value) : bool :=
  match v with
  | VNone => false
  | VBool b => b
  | VInt n => negb (n =? 0)
  | VStr s => negb (String.eqb s "")
  | VBytes b => negb (py_len b =? 0)
  | VOther truthy => truthy
  end.

Definition isinstance_str (v : py_value) : bool :=
  match v with
  | VStr _ => true
  | _ => false
  end.

(** [Tag] of [bee_py/types/type.py]: the field [make_tag_uid] reads. *)
Record Tag : Type := mkTag {
  uid : Z
}.

(** A tag uid as passed by a caller: a [Tag] or a plain value. *)
Inductive tag_uid_arg : Type :=
| UidTag (t : Tag)
| UidValue (v : py_value).

(** [ReferenceType] of the [swarm_cid] package and what its [decode_cid]
    returns; the type of a CID that is not a Swarm CID is [None]. *)
Inductive ReferenceType : Type := MANIFEST | FEED.

#[global] Instance ReferenceType_eq_dec : EqDecision ReferenceType.
Proof. solve_decision. Defined.

Record DecodedCid : Type := mkDecodedCid {
  cid_type : option ReferenceType;
  cid_reference : string
}.

(** [TransactionOptions]: the fields [assert_transaction_options] reads,
    and the request options the object carries. *)
Record TransactionOptions : Type := mkTransactionOptions {
  gas_price : py_value;
  gas_limit : py_value;
  transaction_request : BeeRequestOptions
}.

Inductive transaction_options_arg : Type :=
| TxNone
| TxModel (o : TransactionOptions)
| TxDict (d : list (string * Z))
| TxOther.

(** [FileUploadOptions]: the fields [assert_file_upload_options] reads. *)
Record FileUploadOptions : Type := mkFileUploadOptions {
  size : py_value;
  content_type : py_value
}.

(** [JsonFeedOptions]: feed type, signer, address, and the request options
    the object carries. *)
Record JsonFeedOptions : Type := mkJsonFeedOptions {
  json_type : option feed_type_arg;
  json_signer : signer_arg;
  json_address : option bytes_or_str;
  json_request : BeeRequestOptions
}.

Inductive json_options_arg : Type :=
| JsonNone
| JsonModel (o : JsonFeedOptions)
| JsonDict (d : list (string * Z))
| JsonOther.

(** [SOCReader] and [SOCWriter]: the owner and the closures [download] and
    [upload], which take no argument. *)
Record SOCReader : Type := mkSOCReader {
  reader_owner : bytes_or_str;
  reader_download : unit -> result string
}.

Record SOCWriter : Type := mkSOCWriter {
  soc_owner : bytes_or_str;
  soc_download : unit -> result string;
  soc_upload : unit -> result string
}.

(** The further functions and declarations that [bee.py] and
    [utils/type.py] take from modules whose sources are not at hand. *)
Class Services : Type := {
  (* the builtin [int] on a [str]: [None] is a [ValueError] *)
  py_int : string -> option Z;
  (* [bee_py.utils.hex.assert_hex_string], with and without a length, and
     [is_hex_string] *)
  assert_hex_string : py_value -> option Z -> result unit;
  is_hex_string : py_value -> bool;
  (* [ens.utils.is_valid_ens_name] *)
  is_valid_ens_name : string -> bool;
  (* [swarm_cid.decode_cid] *)
  decode_cid : string -> result DecodedCid;
  (* constants of [bee_py.types.type] *)
  REFERENCE_HEX_LENGTH : Z;
  ENCRYPTED_REFERENCE_HEX_LENGTH : Z;
  PUBKEY_HEX_LENGTH : Z;
  (* [isinstance(topic, Topic)] for the [Topic] of [bee_py.types.type] *)
  isinstance_Topic : py_value -> bool;
  (* whether [TransactionOptions] and [JsonFeedOptions] are subclasses of
     [BeeRequestOptions] *)
  TransactionOptions_is_request_options : bool;
  JsonFeedOptions_is_request_options : bool;
  (* [options.index_document] and [options.error_document] on an object
     that is a [BeeRequestOptions]: an [AttributeError] unless its class
     declares the field *)
  index_document : BeeRequestOptions -> result py_value;
  error_document : BeeRequestOptions -> result py_value;
  (* [options.singer] on a [JsonFeedOptions] *)
  json_singer : JsonFeedOptions -> result signer_arg;
  (* the value itself when it is a [FileUploadOptions], otherwise
     [FileUploadOptions.model_validate(value)] *)
  as_file_upload_options : options_arg -> result FileUploadOptions;
  (* [bee_py.feed.topic.make_topic_from_string] and
     [bee_py.feed.type.DEFAULT_FEED_TYPE] *)
  make_topic_from_string : bytes_or_str -> result bytes_or_str;
  DEFAULT_FEED_TYPE : feed_type_arg;
  (* [bee_py.modules.tag], [bzz], [status], [pss] *)
  tag_api_update_tag : call_options -> Z -> result unit;
  bzz_api_download_file : call_options -> string -> string -> result string;
  status_api_check_connection : call_options -> result bool;
  pss_api_send :
    call_options -> py_value -> string -> py_value -> string -> option py_value
    -> result unit;
  (* [bee_py.feed.json] *)
  json_api_set_json_data :
    FeedWriter -> string -> string -> json_options_arg -> options_arg -> result string;
  json_api_get_json_data : FeedReader -> result string;
  (* [bee_py.chunk.soc] *)
  download_single_owner_chunk : call_options -> bytes_or_str -> result string;
  upload_single_owner_chunk_data : call_options -> signer_arg -> result string
}.

(** [d.get(key)] on a [dict]. *)
Definition dict_get (key : string) (d : list (string * Z)) : option Z :=
  snd <$> find (fun kv => String.eqb (fst kv) key) d.

(** A field passes [check_int_field] when it is unset, zero or otherwise
    false, or an [int] that is not negative. *)
Definition field_passes (field : py_value) : Prop :=
  py_truthy field = false \/ field = VBool true \/ exists n, field = VInt n /\ 0 < n.

Module UtilsType.

Section Validators.
Context `{Collaborators} `{Services}.

(** [try: body  except TypeError: handler]. *)
Definition try_except_TypeError {A} (body : result A) (handler : result A)
  : result A :=
  match body with
  | Raise TypeError => handler
  | _ => body
  end.

(** [try: body  except ValueError as e: handler]. *)
Definition try_except_ValueError {A} (body : result A) (handler : result A)
  : result A :=
  match body with
  | Raise ValueError => handler
  | _ => body
  end.

(** [int(value)] of a [str], raising [ValueError]. *)
Definition int_of_str (s : string) : result Z :=
  match py_int s with
  | Some n => Ok n
  | None => Raise ValueError
  end.

Definition assert_non_negative_integer (value : py_value) : result unit :=
  match value with
  | VInt _ | VBool _ | VStr _ =>
      n ← match value with
          | VStr s => int_of_str s
          | VBool b => Ok (Z.b2z b)
          | VInt n => Ok n
          | _ => Raise ValueError
          end;
      if n <? 0 then Raise ValueError else Ok tt
  | _ => Raise ValueError
  end.

(** [make_tag_uid]; a [bool] is an [int] for [isinstance], and [True] is
    returned as the integer it is. *)
Definition make_tag_uid (tag_uid : tag_uid_arg) : result Z :=
  match tag_uid with
  | UidTag t => Ok (uid t)
  | UidValue v =>
      if negb (py_truthy v) then Raise TypeError
      else
        match v with
        | VInt n => _ ← assert_non_negative_integer v; Ok n
        | VBool b => _ ← assert_non_negative_integer v; Ok (Z.b2z b)
        | VStr s =>
            try_except_ValueError
              (int_value ← int_of_str s;
               if int_value <? 0 then Raise TypeError else Ok int_value)
              (Raise TypeError)
        | _ => Raise TypeError
        end
  end.

Definition assert_reference (value : py_value) : result unit :=
  try_except_TypeError
    (assert_hex_string value (Some REFERENCE_HEX_LENGTH))
    (assert_hex_string value (Some ENCRYPTED_REFERENCE_HEX_LENGTH)).

Definition assert_reference_or_ens (value : py_value) : result unit :=
  match value with
  | VStr s =>
      _ ← (if is_hex_string value then assert_reference value else Ok tt);
      if negb (is_valid_ens_name s) then Raise TypeError else Ok tt
  | _ => Raise TypeError
  end.

(** [make_reference_or_ens]: the [try] block returns or raises, so the two
    statements after it are never run. *)
Definition make_reference_or_ens (value : py_value) (expected_cid_type : ReferenceType)
  : result string :=
  match value with
  | VStr s =>
      try_except_BeeError
        (decoded ← decode_cid s;
         if bool_decide (cid_type decoded ≠ Some expected_cid_type)
         then Raise BeeError
         else Ok (cid_reference decoded))
        (fun e => Raise e)
  | _ => Raise TypeError
  end.

(** The check that [assert_transaction_options] and
    [assert_file_upload_options] make on a field that is set: it has to be
    a non-negative [int]. *)
Definition check_int_field (field : py_value) (not_int negative : exn) : result unit :=
  if py_truthy field then
    match field with
    | VInt n => if n <? 0 then Raise negative else Ok tt
    | VBool _ => Ok tt
    | _ => Raise not_int
    end
  else Ok tt.

(** [options.gas_price] and [options.gas_limit]: on a [dict] and on [None]
    the attribute does not exist. *)
Definition transaction_field (field : TransactionOptions -> py_value)
    (options : transaction_options_arg) : result py_value :=
  match options with
  | TxModel o => Ok (field o)
  | _ => Raise AttributeError
  end.

(** The argument as [assert_request_options] classifies it. *)
Definition transaction_request_options (value : transaction_options_arg) : options_arg :=
  match value with
  | TxNone => OptNone
  | TxModel o =>
      if TransactionOptions_is_request_options
      then OptModel (transaction_request o)
      else OptOther
  | TxDict d => OptDict d
  | TxOther => OptOther
  end.

Definition assert_transaction_options (value : transaction_options_arg) : result unit :=
  match value with
  | TxNone => Ok tt
  | _ =>
      _ ← assert_request_options (transaction_request_options value);
      price ← transaction_field gas_price value;
      _ ← check_int_field price ValueError ValueError;
      limit ← transaction_field gas_limit value;
      check_int_field limit ValueError ValueError
  end.

Definition assert_cashout_options (value : transaction_options_arg) : result unit :=
  assert_transaction_options value.

Definition assert_file_upload_options (value : options_arg) : result unit :=
  _ ← assert_upload_options value;
  _ ← match value with
      | OptDict d =>
          match dict_get "size" d with
          | Some n => if negb (n =? 0) then Raise TypeError else Ok tt
          | None => Ok tt
          end
      | _ => Ok tt
      end;
  options ← as_file_upload_options value;
  _ ← check_int_field (size options) TypeError ValueError;
  if py_truthy (content_type options) && negb (isinstance_str (content_type options))
  then Raise TypeError
  else Ok tt.

(** [options.index_document] and [options.error_document] on the caller's
    value: [None] and a [dict] have no such attribute. *)
Definition document_field (field : BeeRequestOptions -> result py_value)
    (value : options_arg) : result py_value :=
  match value with
  | OptModel o => field o
  | _ => Raise AttributeError
  end.

Definition check_str_field (field : py_value) : result unit :=
  if py_truthy field then
    if negb (isinstance_str field) then Raise TypeError else Ok tt
  else Ok tt.

Definition assert_collection_upload_options (value : options_arg) : result unit :=
  _ ← assert_upload_options value;
  index ← document_field index_document value;
  _ ← check_str_field index;
  error ← document_field error_document value;
  check_str_field error.

Definition assert_public_key (value : py_value) : result unit :=
  assert_hex_string value (Some PUBKEY_HEX_LENGTH).

End Validators.

End UtilsType.

(** ** More methods of [class Bee] *)

Module BeeMethods.

Import UtilsType.

Section Methods.
Context `{Collaborators} `{Services}.

Definition make_feed_topic (self : Bee.t) (topic : bytes_or_str) : result bytes_or_str :=
  make_topic_from_string topic.

Definition download_file (self : Bee.t) (reference : py_value) (path : string)
    (options : options_arg) : result string :=
  _ ← assert_reference_or_ens reference;
  reference ← make_reference_or_ens reference MANIFEST;
  request_options ← Bee.__get_request_options_for_call self options;
  bzz_api_download_file request_options reference path.


Definition pss_send (self : Bee.t) (postage_batch_id : string) (topic : py_value)
    (target : string) (data recipient : py_value) (options : options_arg)
  : result unit :=
  _ ← assert_request_options options;
  if negb (isinstance_Topic topic) || negb (isinstance_str topic)
  then Raise TypeError
  else if py_truthy recipient then
    _ ← assert_public_key recipient;
    request_options ← Bee.__get_request_options_for_call self options;
    pss_api_send request_options topic target data postage_batch_id (Some recipient)
  else
    request_options ← Bee.__get_request_options_for_call self options;
    pss_api_send request_options topic target data postage_batch_id None.

Definition check_connection (self : Bee.t) (options : options_arg) : result bool :=
  _ ← assert_request_options options;
  request_options ← Bee.__get_request_options_for_call self options;
  status_api_check_connection request_options.



(** A [JsonFeedOptions] argument as [assert_request_options] classifies it,
    and its attributes: [None] and a [dict] have none. *)
Definition json_request_options (options : json_options_arg) : options_arg :=
  match options with
  | JsonNone => OptNone
  | JsonModel o =>
      if JsonFeedOptions_is_request_options then OptModel (json_request o)
      else OptOther
  | JsonDict d => OptDict d
  | JsonOther => OptOther
  end.

Definition json_field {A} (field : JsonFeedOptions -> A) (options : json_options_arg)
  : result A :=
  match options with
  | JsonModel o => Ok (field o)
  | _ => Raise AttributeError
  end.

Definition feed_type_truthy (feed_type : option feed_type_arg) : bool :=
  match feed_type with
  | None => false
  | Some (FtMember _) => true
  | Some (FtStr s) => negb (String.eqb s "")
  end.

Definition address_truthy (a : option bytes_or_str) : bool :=
  match a with
  | None => false
  | Some (Bytes b) => negb (py_len b =? 0)
  | Some (Str s) => negb (String.eqb s "")
  end.

(** [if options.type: feed_type = options.type  else: DEFAULT_FEED_TYPE]. *)
Definition feed_type_of (feed_type : option feed_type_arg) : feed_type_arg :=
  match feed_type with
  | Some t => if feed_type_truthy feed_type then t else DEFAULT_FEED_TYPE
  | None => DEFAULT_FEED_TYPE
  end.

Definition set_json_feed (self : Bee.t) (postage_batch_id : string)
    (topic : bytes_or_str) (data : string) (options : json_options_arg)
    (request_options : options_arg) : result string :=
  _ ← assert_request_options (json_request_options options);
  hashed_topic ← make_feed_topic self topic;
  type ← json_field json_type options;
  signer ← json_field json_signer options;
  writer ← Bee.make_feed_writer self (feed_type_of type) hashed_topic signer
             request_options;
  json_api_set_json_data writer postage_batch_id data options request_options.

(** [<signer>.address]: only a [Signer] object has the attribute. *)
Definition signer_address (signer : signer_arg) : result bytes_or_str :=
  match signer with
  | SignerObj s => Ok (Bytes (address s))
  | _ => Raise AttributeError
  end.

(** An address handed on in the place of a signer. *)
Definition address_as_signer (a : bytes_or_str) : signer_arg :=
  match a with
  | Bytes b => SignerBytes b
  | Str s => SignerStr s
  end.

Definition get_json_feed (self : Bee.t) (topic : bytes_or_str)
    (options : json_options_arg) : result string :=
  _ ← assert_request_options (json_request_options options);
  hashed_topic ← make_feed_topic self topic;
  type ← json_field json_type options;
  singer ← match options with
           | JsonModel o => json_singer o
           | _ => Raise AttributeError
           end;
  options_address ← json_field json_address options;
  if signer_truthy singer && address_truthy options_address then Raise BeeError
  else
    let resolve_default :=
      try_except_BeeError
        (signer ← json_field json_signer options;
         resolved ← Bee.___resolve_signer self signer;
         signer_address resolved)
        (fun _ => Raise BeeError) in
    address ←
      match options_address with
      | Some a =>
          if address_truthy options_address then make_eth_address a
          else resolve_default
      | None => resolve_default
      end;
    reader ← Bee.make_feed_reader self (feed_type_of type) hashed_topic
               (address_as_signer address) (json_request_options options);
    json_api_get_json_data reader.

Definition make_soc_reader (self : Bee.t) (owner_address : bytes_or_str)
    (options : options_arg) : result SOCReader :=
  _ ← assert_request_options options;
  canonical_owner ← make_eth_address owner_address;
  owner ← make_hex_eth_address canonical_owner;
  Ok {| reader_owner := owner;
        reader_download := fun _ =>
          request_options ← Bee.__get_request_options_for_call self options;
          download_single_owner_chunk request_options canonical_owner |}.

Definition make_soc_writer (self : Bee.t) (signer : signer_arg)
    (options : options_arg) : result SOCWriter :=
  _ ← assert_request_options options;
  canonical_signer ← Bee.___resolve_signer self signer;
  signer_owner ← signer_address canonical_signer;
  reader ← make_soc_reader self signer_owner options;
  Ok {| soc_owner := reader_owner reader;
        soc_download := reader_download reader;
        soc_upload := fun _ =>
          request_options ← Bee.__get_request_options_for_call self options;
          upload_single_owner_chunk_data request_options canonical_signer |}.

End Methods.

End BeeMethods.

(** Test doubles for the further collaborators: decimal digits for [int],
    hexadecimal digits for the hex checks, any non-empty name for ENS, a CID
    is a [bah5] prefix before the reference, [Topic] is [str]. *)
Module MockServices.

Definition digit (c : Ascii.ascii) : option Z :=
  let n := Z.of_nat (Ascii.nat_of_ascii c) in
  if (48 <=? n) && (n <=? 57) then Some (n - 48) else None.

Fixpoint digits (s : string) (acc : Z) : option Z :=
  match s with
  | EmptyString => Some acc
  | String c rest =>
      match digit c with
      | Some d => digits rest (acc * 10 + d)
      | None => None
      end
  end.

Definition int (s : string) : option Z :=
  match s with
  | EmptyString => None
  | String c rest =>
      if Ascii.eqb c (Ascii.ascii_of_nat 45)
      then match rest with
           | EmptyString => None
           | _ => Z.opp <$> digits rest 0
           end
      else digits s 0
  end.

Definition hex_digit (c : Ascii.ascii) : bool :=
  let n := Z.of_nat (Ascii.nat_of_ascii c) in
  ((48 <=? n) && (n <=? 57)) || ((97 <=? n) && (n <=? 102)).

Definition hex (s : string) : bool :=
  forallb hex_digit (list_ascii_of_string s).

Definition services : Services := {|
  py_int := int;
  assert_hex_string := fun v len =>
    match v with
    | VStr s =>
        if hex s && match len with
                    | Some n => Z.of_nat (String.length s) =? n
                    | None => true
                    end
        then Ok tt else Raise TypeError
    | _ => Raise TypeError
    end;
  is_hex_string := fun v => match v with VStr s => hex s | _ => false end;
  is_valid_ens_name := fun s => negb (String.eqb s "");
  decode_cid := fun s =>
    if String.prefix "bah5" s
    then Ok {| cid_type := Some MANIFEST;
               cid_reference := String.substring 4 (String.length s - 4) s |}
    else Raise ValueError;
  REFERENCE_HEX_LENGTH := 64;
  ENCRYPTED_REFERENCE_HEX_LENGTH := 128;
  PUBKEY_HEX_LENGTH := 66;
  isinstance_Topic := isinstance_str;
  TransactionOptions_is_request_options := true;
  JsonFeedOptions_is_request_options := true;
  index_document := fun _ => Ok VNone;
  error_document := fun _ => Ok VNone;
  json_singer := fun _ => Raise AttributeError;
  as_file_upload_options := fun _ => Ok {| size := VNone; content_type := VNone |};
  make_topic_from_string := fun t => Ok t;
  DEFAULT_FEED_TYPE := FtStr "sequence";
  tag_api_update_tag := fun _ _ => Ok tt;
  bzz_api_download_file := fun _ reference _ => Ok reference;
  status_api_check_connection := fun _ => Ok true;
  pss_api_send := fun _ _ _ _ _ _ => Ok tt;
  json_api_set_json_data := fun _ _ _ _ _ => Ok "reference";
  json_api_get_json_data := fun _ => Ok "{}";
  download_single_owner_chunk := fun _ _ => Ok "chunk";
  upload_single_owner_chunk_data := fun _ _ => Ok "reference"
|}.

(** An instance that was given a default signer. *)
Definition bee_with_signer : Bee.t :=
  {| Bee.url := "http://localhost:1633";
     Bee.signer := Some (SignerObj Mock.alice);
     Bee.request_options := {| retry := None; timeout := None |} |}.

End MockServices.

(** * Properties *)

(** Case analysis on the result of a call: the proof goes on with the value
    the call returned; an exception ends the computation, and the goal with
    it. *)
Ltac returned r :=
  destruct r; [| first [ reflexivity | discriminate | cbn; discriminate ] ].

Example mangle_private : Bee.mangle "___resolve_signer" = "_Bee___resolve_signer".
Proof. reflexivity. Qed.

Example mangle_dunder : Bee.mangle "__init__" = "__init__".
Proof. reflexivity. Qed.

Example mangle_public : Bee.mangle "resolve_signer" = "resolve_signer".
Proof. reflexivity. Qed.

(** ** Big-endian bytes *)

Lemma Z_of_byte_of_Z (z : Z) : Z_of_byte (byte_of_Z z) = z mod 256.
Proof.
  unfold Z_of_byte, byte_of_Z.
  assert (Hr : 0 <= z mod 256 < 256) by (apply Z.mod_pos_bound; lia).
  destruct (Byte.of_N (Z.to_N (z mod 256))) as [b|] eqn:E; simpl.
  - apply Byte.to_of_N in E. rewrite E. lia.
  - apply Byte.of_N_None_iff in E. lia.
Qed.

Lemma Z_of_byte_range (b : byte) : 0 <= Z_of_byte b < 256.
Proof.
  unfold Z_of_byte. pose proof (Byte.to_N_bounded b). lia.
Qed.

Lemma be_bytes_length (w : nat) (n : Z) : length (be_bytes w n) = w.
Proof. induction w as [|w IH]; simpl; [reflexivity | now rewrite IH]. Qed.

(** Folding the bytes of [be_bytes w n] onto an accumulator shifts it by
    [w] bytes and adds the [w] low bytes of [n]. *)
Lemma be_fold_bytes (w : nat) (n acc : Z) :
  fold_left (fun a b => a * 256 + Z_of_byte b) (be_bytes w n) acc
  = acc * 2 ^ (8 * Z.of_nat w) + n mod 2 ^ (8 * Z.of_nat w).
Proof.
  revert acc. induction w as [|w IH]; intros acc.
  - simpl. rewrite Z.mod_1_r. lia.
  - cbn [be_bytes fold_left]. rewrite IH, Z_of_byte_of_Z.
    rewrite Z.shiftr_div_pow2 by lia.
    replace (8 * Z.of_nat (S w)) with (8 * Z.of_nat w + 8) by lia.
    rewrite Z.pow_add_r by lia.
    change (2 ^ 8) with 256.
    assert (Hp : 0 < 2 ^ (8 * Z.of_nat w)) by (apply Z.pow_pos_nonneg; lia).
    rewrite (Z.rem_mul_r n (2 ^ (8 * Z.of_nat w)) 256) by lia.
    lia.
Qed.

Lemma be_value_be_bytes (w : nat) (n : Z) :
  be_value (be_bytes w n) = n mod 2 ^ (8 * Z.of_nat w).
Proof. unfold be_value. rewrite be_fold_bytes. lia. Qed.

Lemma be_value_zeros (k : nat) (bs : list byte) :
  be_value (repeat x00 k ++ bs) = be_value bs.
Proof.
  unfold be_value. rewrite fold_left_app. f_equal.
  induction k as [|k IH]; simpl; [reflexivity | exact IH].
Qed.

Example be_bytes_258 : be_bytes 8 258 = [ x00; x00; x00; x00; x00; x00; x01; x02 ].
Proof. reflexivity. Qed.

Example be_value_258 : be_value [ x00; x00; x00; x00; x00; x00; x01; x02 ] = 258.
Proof. reflexivity. Qed.

(** ** The feed index codec *)

Lemma encode_length (x : FeedSpec.Index) : length (FeedSpec.encode x) = 32%nat.
Proof.
  destruct x; simpl; rewrite ?length_app, ?be_bytes_length; reflexivity.
Qed.

Example encode_sequence_3 :
  FeedSpec.encode (FeedSpec.Sequence 3) = repeat x00 31 ++ [ x03 ].
Proof. reflexivity. Qed.

Example encode_epoch_5_2 :
  FeedSpec.encode (FeedSpec.Epoch 5 2)
  = repeat x00 7 ++ [ x05; x02 ] ++ repeat x00 23.
Proof. reflexivity. Qed.

Example decode_unknown_tag :
  FeedSpec.decode "time" (FeedSpec.encode (FeedSpec.Sequence 3))
  = inl FeedSpec.UnsupportedFeedTypeError.
Proof. reflexivity. Qed.

Lemma decode_encode_sequence (n : Z) :
  0 <= n < 2 ^ 64 ->
  FeedSpec.decode "sequence" (FeedSpec.encode (FeedSpec.Sequence n))
  = inr (FeedSpec.Sequence n).
Proof.
  intros Hn. unfold FeedSpec.decode, FeedSpec.encode. simpl String.eqb. cbv iota.
  rewrite (be_value_zeros 24), be_value_be_bytes.
  change (2 ^ (8 * Z.of_nat 8)) with (2 ^ 64).
  rewrite Z.mod_small by lia. reflexivity.
Qed.

Lemma decode_encode_epoch (base level : Z) :
  0 <= base < 2 ^ 64 -> 0 <= level < 2 ^ 8 ->
  FeedSpec.decode "epoch" (FeedSpec.encode (FeedSpec.Epoch base level))
  = inr (FeedSpec.Epoch base level).
Proof.
  intros Hb Hl. unfold FeedSpec.decode, FeedSpec.encode. simpl String.eqb. cbv iota.
  rewrite firstn_app, be_bytes_length, Nat.sub_diag, firstn_O, app_nil_r.
  rewrite firstn_all2 by (rewrite be_bytes_length; lia).
  rewrite be_value_be_bytes.
  change (2 ^ (8 * Z.of_nat 8)) with (2 ^ 64).
  rewrite Z.mod_small by lia.
  rewrite app_nth2 by (rewrite be_bytes_length; lia).
  rewrite be_bytes_length. simpl nth.
  rewrite Z_of_byte_of_Z.
  change 256 with (2 ^ 8).
  rewrite Z.mod_small by lia. reflexivity.
Qed.

(** C5. Index codec round trip: for every sequence index in 0..2^64-1 and
    every epoch with a 64-bit base and an 8-bit level, decoding the 32-byte
    encoding under the index's feed type gives the index back. *)
Theorem index_codec_round_trip (x : FeedSpec.Index) :
  FeedSpec.valid_index x ->
  FeedSpec.decode (FeedSpec.tag x) (FeedSpec.encode x) = inr x.
Proof.
  destruct x as [n | base level]; cbn [FeedSpec.valid_index FeedSpec.tag].
  - apply decode_encode_sequence.
  - intros [Hb Hl]. now apply decode_encode_epoch.
Qed.

(** So the encodings of two indices of one feed type differ. *)
Corollary encode_injective (x y : FeedSpec.Index) :
  FeedSpec.valid_index x -> FeedSpec.valid_index y ->
  FeedSpec.tag x = FeedSpec.tag y ->
  FeedSpec.encode x = FeedSpec.encode y -> x = y.
Proof.
  destruct x as [n | base level], y as [n' | base' level'];
    cbn [FeedSpec.valid_index FeedSpec.tag]; intros Hx Hy Htag Henc;
    try discriminate.
  - pose proof (decode_encode_sequence n Hx) as Hd.
    rewrite Henc, (decode_encode_sequence n' Hy) in Hd. congruence.
  - destruct Hx as [Hb Hl], Hy as [Hb' Hl'].
    pose proof (decode_encode_epoch base level Hb Hl) as Hd.
    rewrite Henc, (decode_encode_epoch base' level' Hb' Hl') in Hd.
    congruence.
Qed.

Lemma index_codec_round_trip_witness :
  FeedSpec.valid_index (FeedSpec.Epoch (2 ^ 64 - 1) 255)
  /\ FeedSpec.decode "epoch" (FeedSpec.encode (FeedSpec.Epoch (2 ^ 64 - 1) 255))
     = inr (FeedSpec.Epoch (2 ^ 64 - 1) 255).
Proof.
  assert (Hv : FeedSpec.valid_index (FeedSpec.Epoch (2 ^ 64 - 1) 255))
    by (simpl; lia).
  split; [exact Hv | exact (index_codec_round_trip _ Hv)].
Defined.

(** ** The SOC codec *)

Section SocCodec.
Context `{Primitives}.

(** C4. SOC round trip: for every signer whose signatures are recoverable,
    every identifier and every chunk address, verifying the SOC that [build]
    signs succeeds and returns the signer's own address. *)
Theorem soc_verify_build (signer : Signer) (identifier chunk_address : list byte) :
  Soc.recoverable signer ->
  Soc.verify (Soc.build identifier chunk_address signer) = inr (address signer).
Proof.
  intros Hrec. unfold Soc.verify, Soc.build. cbn [Soc.signature Soc.identifier
    Soc.wrapped_address Soc.claimed_address].
  rewrite Hrec. rewrite bool_decide_true by reflexivity. reflexivity.
Qed.

(** With a collision-free hash, a signed SOC whose identifier was replaced by
    another of the same length is rejected. *)
Lemma soc_identifier_tamper_detected (signer : Signer)
    (identifier identifier' chunk_address : list byte) :
  (forall a b, keccak256 a = keccak256 b -> a = b) ->
  length identifier' = length identifier ->
  identifier' <> identifier ->
  let soc := Soc.build identifier chunk_address signer in
  Soc.verify {| Soc.signature := Soc.signature soc;
                Soc.identifier := identifier';
                Soc.wrapped_address := Soc.wrapped_address soc;
                Soc.claimed_address := Soc.claimed_address soc |}
  = inl FeedSpec.SignatureMismatchError.
Proof.
  intros Hinj Hlen Hne soc. unfold Soc.verify. cbn.
  rewrite bool_decide_false; [reflexivity|].
  unfold FeedSpec.soc_address. intros Heq. apply Hinj in Heq.
  apply app_inj_1 in Heq; [| exact Hlen]. destruct Heq as [Heq _]. contradiction.
Qed.

End SocCodec.

Lemma mock_signer_recoverable (addr : list byte) :
  length addr = 20%nat -> @Soc.recoverable Mock.primitives (Mock.signer_of addr).
Proof.
  intros Hlen m. cbn. rewrite firstn_app, Hlen, Nat.sub_diag, firstn_O, app_nil_r.
  apply firstn_all2. lia.
Qed.

Lemma soc_verify_build_witness :
  @Soc.recoverable Mock.primitives Mock.alice
  /\ @Soc.verify Mock.primitives
       (@Soc.build Mock.primitives (repeat x0a 32) (repeat x0b 32) Mock.alice)
     = inr (repeat x01 20).
Proof.
  assert (Hrec : @Soc.recoverable Mock.primitives Mock.alice)
    by (apply mock_signer_recoverable; reflexivity).
  split; [exact Hrec|].
  exact (@soc_verify_build Mock.primitives Mock.alice (repeat x0a 32) (repeat x0b 32) Hrec).
Defined.

(** The contracts of the hash and of the signer alone do not give tamper
    detection: with a collision-free hash and recoverable signatures, a SOC
    whose wrapped address was changed can still verify.  What rejects it in
    the implementation is that a secp256k1 signature cannot be reused for
    another digest, which holds only up to a negligible probability. *)
Remark soc_tamper_needs_unforgeability :
  exists (P : Primitives) (signer : Signer) (soc soc' : Soc.SignedSOC),
    (forall a b, @keccak256 P a = @keccak256 P b -> a = b)
    /\ @Soc.recoverable P signer
    /\ soc = @Soc.build P (repeat x0a 32) (repeat x0b 32) signer
    /\ Soc.wrapped_address soc' <> Soc.wrapped_address soc
    /\ Soc.signature soc' = Soc.signature soc
    /\ Soc.identifier soc' = Soc.identifier soc
    /\ @Soc.verify P soc' = inr (address signer).
Proof.
  exists Mock.primitives, Mock.alice.
  eexists.
  exists {| Soc.signature := address Mock.alice ++ repeat x00 45;
            Soc.identifier := repeat x0a 32;
            Soc.wrapped_address := repeat xff 32;
            Soc.claimed_address := repeat x0a 32 ++ address Mock.alice |}.
  split; [intros a b Hab; exact Hab|].
  split; [apply mock_signer_recoverable; reflexivity|].
  split; [reflexivity|].
  split; [cbn; discriminate|].
  split; [reflexivity|].
  split; [reflexivity|].
  vm_compute. reflexivity.
Qed.

(** ** [Bee.upload_chunk] *)

Section UploadChunk.
Context `{Collaborators}.

Lemma upload_chunk_not_bytes (self : Bee.t) (batch : string)
    (options request_options : options_arg) :
  Bee.upload_chunk self batch DataOther options request_options = Raise TypeError.
Proof. reflexivity. Qed.

(** Within the bounds, the chunk goes past the size checks: to the
    validation of the upload options, the request options of the call and
    the node. *)
Lemma upload_chunk_in_bounds (self : Bee.t) (batch : string) (b : list byte)
    (options request_options : options_arg) :
  SPAN_SIZE <= py_len b <= CHUNK_SIZE + SPAN_SIZE ->
  Bee.upload_chunk self batch (DataBytes b) options request_options
  = (_ ← match options with
         | OptNone => Ok tt
         | _ => assert_upload_options options
         end;
     call_options ← Bee.__get_request_options_for_call self request_options;
     chunk_api_upload call_options b batch options).
Proof.
  intros Hb. unfold Bee.upload_chunk.
  destruct (Z.ltb_spec (py_len b) SPAN_SIZE) as [Hlt|_]; [lia|].
  destruct (Z.gtb_spec (py_len b) (CHUNK_SIZE + SPAN_SIZE)) as [Hgt|_]; [lia|].
  reflexivity.
Qed.

(** Outside the bounds the call raises, and never a [BeeArgumentError]. *)
Lemma upload_chunk_out_of_bounds (self : Bee.t) (batch : string) (b : list byte)
    (options request_options : options_arg) :
  py_len b < SPAN_SIZE \/ CHUNK_SIZE + SPAN_SIZE < py_len b ->
  Bee.upload_chunk self batch (DataBytes b) options request_options = Raise TypeError.
Proof.
  intros Hb. unfold Bee.upload_chunk.
  destruct (Z.ltb_spec (py_len b) SPAN_SIZE) as [_|Hge]; [reflexivity|].
  destruct (Z.gtb_spec (py_len b) (CHUNK_SIZE + SPAN_SIZE)) as [_|Hle];
    [reflexivity | lia].
Qed.

(** C6, on the code: the bounds are the claim's, the failure is not.  Every
    [bytes] argument shorter than 8 bytes and every one of 4105 bytes or more
    makes [upload_chunk] raise, but what is raised is [TypeError]: the size
    error [BeeArgumentError] is built from the message alone and its
    construction fails.  Data of exactly 4104 bytes passes the size checks
    and goes on to the options validation and the upload. *)
Theorem upload_chunk_size_bound (self : Bee.t) (batch : string) (b : list byte)
    (options request_options : options_arg) :
  (py_len b < 8 ->
   Bee.upload_chunk self batch (DataBytes b) options request_options
   = Raise TypeError)
  /\ (py_len b = 4104 ->
      Bee.upload_chunk self batch (DataBytes b) options request_options
      = (_ ← match options with
             | OptNone => Ok tt
             | _ => assert_upload_options options
             end;
         call_options ← Bee.__get_request_options_for_call self request_options;
         chunk_api_upload call_options b batch options))
  /\ (4105 <= py_len b ->
      Bee.upload_chunk self batch (DataBytes b) options request_options
      = Raise TypeError).
Proof.
  repeat split.
  - intros Hlt. apply upload_chunk_out_of_bounds. unfold SPAN_SIZE. lia.
  - intros Heq. apply upload_chunk_in_bounds. unfold SPAN_SIZE, CHUNK_SIZE. lia.
  - intros Hge. apply upload_chunk_out_of_bounds. unfold SPAN_SIZE, CHUNK_SIZE. lia.
Qed.

End UploadChunk.

Lemma upload_chunk_size_bound_witness :
  let C := Mock.node ∅ (Raise BeeError) in
  @Bee.upload_chunk C Mock.bee "batch" (DataBytes (repeat x00 7)) OptNone OptNone
  = Raise TypeError
  /\ @Bee.upload_chunk C Mock.bee "batch" (DataBytes (repeat x00 4104)) OptNone OptNone
     = Ok "reference"
  /\ @Bee.upload_chunk C Mock.bee "batch" (DataBytes (repeat x00 4105)) OptNone OptNone
     = Raise TypeError.
Proof.
  intros C.
  pose proof (@upload_chunk_size_bound C Mock.bee "batch" (repeat x00 7)
                OptNone OptNone) as (H7 & _ & _).
  pose proof (@upload_chunk_size_bound C Mock.bee "batch" (repeat x00 4104)
                OptNone OptNone) as (_ & H4104 & _).
  pose proof (@upload_chunk_size_bound C Mock.bee "batch" (repeat x00 4105)
                OptNone OptNone) as (_ & _ & H4105).
  split; [apply H7; vm_compute; reflexivity|].
  split; [rewrite H4104 by (vm_compute; reflexivity); reflexivity|].
  apply H4105. vm_compute. discriminate.
Defined.

(** ** Attribute lookup and [Bee.___resolve_signer] *)

Lemma getattr_resolve_signer (self : Bee.t) :
  Bee.getattr self "resolve_signer" = Raise AttributeError.
Proof. destruct self as [u [s|] r]; reflexivity. Qed.

Lemma getattr_private_resolve_signer (self : Bee.t) :
  Bee.getattr self "___resolve_signer" = Ok "_Bee___resolve_signer".
Proof. destruct self as [u [s|] r]; reflexivity. Qed.

Lemma get_signer_unset (self : Bee.t) :
  Bee.signer self = None -> Bee.get_signer self = Raise AttributeError.
Proof. destruct self as [u [s|] r]; cbn; [discriminate | reflexivity]. Qed.

Lemma get_signer_set (self : Bee.t) (s : signer_arg) :
  Bee.signer self = Some s -> Bee.get_signer self = Ok s.
Proof. destruct self as [u [s'|] r]; cbn; intros [= ->]; reflexivity. Qed.

Section ResolveSigner.
Context `{Collaborators}.

(** C3, on the code: a signer passed to the call is not returned, the call
    raises [ValueError], whatever the instance's default signer is. *)
Theorem resolve_signer_explicit_raises (self : Bee.t) (s : Signer) :
  Bee.___resolve_signer self (SignerObj s) = Raise ValueError.
Proof. reflexivity. Qed.

(** The same for every argument that Python reads as true: a non-empty key
    in [bytes] or in a hex string. *)
Lemma resolve_signer_truthy_raises (self : Bee.t) (signer : signer_arg) :
  signer_truthy signer = true ->
  Bee.___resolve_signer self signer = Raise ValueError.
Proof. intros Ht. unfold Bee.___resolve_signer. rewrite Ht. reflexivity. Qed.

(** Without a signer in the call, the default signer of the instance is
    returned. *)
Lemma resolve_signer_default (self : Bee.t) (signer default : signer_arg) :
  signer_truthy signer = false ->
  Bee.signer self = Some default ->
  signer_truthy default = true ->
  Bee.___resolve_signer self signer = Ok default.
Proof.
  intros Hs Hd Ht. unfold Bee.___resolve_signer.
  rewrite Hs, (get_signer_set _ _ Hd). cbn. rewrite Ht. reflexivity.
Qed.

(** With neither, the failure is the [AttributeError] of reading the
    attribute [signer], which [__init__] never assigned. *)
Lemma resolve_signer_none (self : Bee.t) (signer : signer_arg) :
  signer_truthy signer = false ->
  Bee.signer self = None ->
  Bee.___resolve_signer self signer = Raise AttributeError.
Proof.
  intros Hs Hd. unfold Bee.___resolve_signer.
  rewrite Hs, (get_signer_unset _ Hd). reflexivity.
Qed.

(** The call fails exactly when a signer is passed or the instance has no
    attribute [signer]. *)
Lemma resolve_signer_fails_iff (self : Bee.t) (signer : signer_arg) :
  (exists e, Bee.___resolve_signer self signer = Raise e)
  <-> signer_truthy signer = true \/ Bee.signer self = None.
Proof.
  unfold Bee.___resolve_signer.
  destruct (signer_truthy signer) eqn:Hs.
  - split; [intros _; now left | intros _; now exists ValueError].
  - destruct (Bee.signer self) as [d|] eqn:Hd.
    + rewrite (get_signer_set _ _ Hd). cbn.
      split.
      * intros [e He]. destruct (signer_truthy d); discriminate.
      * intros [Hf | Hf]; discriminate.
    + rewrite (get_signer_unset _ Hd). cbn.
      split; [intros _; now right | intros _; now exists AttributeError].
Qed.

End ResolveSigner.

(** ** [Bee.make_feed_reader] and [Bee.make_feed_writer] *)

Section MakeFeed.
Context `{Collaborators}.

(** Neither method ever returns a reader or a writer. *)
Lemma make_feed_reader_never_returns (self : Bee.t) (feed_type : feed_type_arg)
    (topic : bytes_or_str) (signer : signer_arg) (options : options_arg) :
  ~ returns (Bee.make_feed_reader self feed_type topic signer options).
Proof.
  intros [r Hr]. unfold Bee.make_feed_reader in Hr.
  returned (assert_feed_type feed_type).
  returned (assert_request_options options).
  returned (make_topic topic).
  cbn in Hr. rewrite getattr_resolve_signer in Hr. discriminate.
Qed.

Lemma make_feed_writer_never_returns (self : Bee.t) (feed_type : feed_type_arg)
    (topic : bytes_or_str) (signer : signer_arg) (options : options_arg) :
  ~ returns (Bee.make_feed_writer self feed_type topic signer options).
Proof.
  intros [r Hr]. unfold Bee.make_feed_writer in Hr.
  returned (assert_request_options options).
  returned (assert_feed_type feed_type).
  returned (make_topic topic).
  cbn in Hr. rewrite getattr_resolve_signer in Hr. discriminate.
Qed.

(** C9. When the feed type, the request options and the topic pass their
    validation, [make_feed_reader] and [make_feed_writer] both raise
    [AttributeError] instead of returning: [self.resolve_signer] names no
    attribute of the instance or of the class, which only defines the
    name-mangled [___resolve_signer]. *)
Theorem make_feed_reader_writer_raise_AttributeError (self : Bee.t)
    (feed_type : feed_type_arg) (topic : bytes_or_str) (signer : signer_arg)
    (options : options_arg) :
  assert_feed_type feed_type = Ok tt ->
  assert_request_options options = Ok tt ->
  returns (make_topic topic) ->
  Bee.make_feed_reader self feed_type topic signer options = Raise AttributeError
  /\ Bee.make_feed_writer self feed_type topic signer options = Raise AttributeError.
Proof.
  intros Hft Hopt [canonical_topic Htopic].
  unfold Bee.make_feed_reader, Bee.make_feed_writer.
  rewrite Hft, Hopt, Htopic. cbn.
  rewrite getattr_resolve_signer. split; reflexivity.
Qed.

End MakeFeed.

Lemma make_feed_reader_writer_raise_AttributeError_witness :
  let C := Mock.node ∅ (Ok "reference") in
  @assert_feed_type C (FtStr "sequence") = Ok tt
  /\ @assert_request_options C (OptDict [ ("timeout", 30) ]) = Ok tt
  /\ returns (@make_topic C Mock.topic)
  /\ @Bee.make_feed_reader C Mock.bee (FtStr "sequence") Mock.topic
       (SignerObj Mock.alice) (OptDict [ ("timeout", 30) ])
     = Raise AttributeError
  /\ @Bee.make_feed_writer C Mock.bee (FtStr "sequence") Mock.topic
       (SignerObj Mock.alice) (OptDict [ ("timeout", 30) ])
     = Raise AttributeError.
Proof.
  intros C.
  assert (Hft : @assert_feed_type C (FtStr "sequence") = Ok tt) by reflexivity.
  assert (Hopt : @assert_request_options C (OptDict [ ("timeout", 30) ]) = Ok tt)
    by reflexivity.
  assert (Htopic : returns (@make_topic C Mock.topic))
    by (exists Mock.topic; reflexivity).
  split; [exact Hft|]. split; [exact Hopt|]. split; [exact Htopic|].
  exact (@make_feed_reader_writer_raise_AttributeError C Mock.bee
           (FtStr "sequence") Mock.topic (SignerObj Mock.alice)
           (OptDict [ ("timeout", 30) ]) Hft Hopt Htopic).
Defined.

(** ** The prefix scan of the retrievability verifier *)

Section Scan.
Context `{Primitives}.
Variables (store : gset (list byte)) (owner topic : list byte).

#[local] Abbreviation present := (FeedSpec.present store owner topic).

Lemma In_indices_up_to (target i : Z) :
  In i (FeedSpec.indices_up_to target) <-> 0 <= i <= target.
Proof.
  unfold FeedSpec.indices_up_to. rewrite in_map_iff. split.
  - intros (k & <- & Hk). apply in_seq in Hk. lia.
  - intros Hi. exists (Z.to_nat i). split; [lia|]. apply in_seq. lia.
Qed.

Lemma indices_up_to_negative (target : Z) :
  target < 0 -> FeedSpec.indices_up_to target = [].
Proof.
  intros Hn. unfold FeedSpec.indices_up_to.
  replace (Z.to_nat (target + 1)) with 0%nat by lia. reflexivity.
Qed.

Lemma indices_up_to_succ (target : Z) :
  0 <= target ->
  FeedSpec.indices_up_to target = FeedSpec.indices_up_to (target - 1) ++ [ target ].
Proof.
  intros Hn. unfold FeedSpec.indices_up_to.
  replace (Z.to_nat (target + 1)) with (S (Z.to_nat target)) by lia.
  replace (Z.to_nat (target - 1 + 1)) with (Z.to_nat target) by lia.
  rewrite seq_S, map_app. cbn. f_equal. f_equal. lia.
Qed.

(** Indices up to [target] start with the indices up to any [k] below. *)
Lemma indices_up_to_split (k target : Z) :
  0 <= k <= target ->
  exists rest,
    FeedSpec.indices_up_to target = FeedSpec.indices_up_to (k - 1) ++ k :: rest.
Proof.
  intros Hk. unfold FeedSpec.indices_up_to.
  replace (Z.to_nat (target + 1))
    with (Z.to_nat (k - 1 + 1) + S (Z.to_nat (target - k)))%nat by lia.
  rewrite seq_app, map_app. cbn [seq map].
  eexists. f_equal. f_equal. lia.
Qed.

Lemma scan_true_iff (indices : list Z) :
  fst (FeedSpec.scan store owner topic indices) = true
  <-> forall i, In i indices -> present i.
Proof.
  induction indices as [|i rest IH]; cbn [FeedSpec.scan].
  - split; [intros _ i [] | reflexivity].
  - destruct (FeedSpec.chunk_exists store (FeedSpec.update_address owner topic i))
      eqn:Hi.
    + destruct (FeedSpec.scan store owner topic rest) as [r queried] eqn:Hs.
      cbn [fst] in *. rewrite IH. split.
      * intros Hall j [<- | Hj]; [exact Hi | now apply Hall].
      * intros Hall j Hj. apply Hall. now right.
    + cbn [fst]. split; [discriminate|].
      intros Hall. specialize (Hall i (or_introl eq_refl)).
      unfold FeedSpec.present in Hall. congruence.
Qed.

(** When everything is there, every index was queried. *)
Lemma scan_all_present (indices : list Z) :
  (forall i, In i indices -> present i) ->
  FeedSpec.scan store owner topic indices = (true, indices).
Proof.
  induction indices as [|i rest IH]; intros Hall; cbn [FeedSpec.scan].
  - reflexivity.
  - rewrite (Hall i (or_introl eq_refl)).
    rewrite IH by (intros j Hj; apply Hall; now right). reflexivity.
Qed.

(** Short circuit: the scan stops at the first missing index, the indices
    after it are not queried. *)
Lemma scan_first_missing (before rest : list Z) (k : Z) :
  (forall i, In i before -> present i) ->
  ~ present k ->
  FeedSpec.scan store owner topic (before ++ k :: rest) = (false, before ++ [ k ]).
Proof.
  intros Hall Hk. induction before as [|i before IH]; cbn [app FeedSpec.scan].
  - unfold FeedSpec.present in Hk. apply not_true_is_false in Hk. rewrite Hk. reflexivity.
  - rewrite (Hall i (or_introl eq_refl)).
    rewrite IH by (intros j Hj; apply Hall; now right). reflexivity.
Qed.

(** The scan up to [target] answers true exactly when every index from 0
    to [target] is on the node. *)
Lemma all_retrievable_iff (target : Z) :
  FeedSpec.all_retrievable store owner topic target = true
  <-> forall i, 0 <= i <= target -> present i.
Proof.
  unfold FeedSpec.all_retrievable. rewrite scan_true_iff.
  split; intros Hall i Hi; apply Hall; now apply In_indices_up_to.
Qed.

(** Prefix closure. *)
Lemma all_retrievable_prefix (target lower : Z) :
  lower <= target ->
  FeedSpec.all_retrievable store owner topic target = true ->
  FeedSpec.all_retrievable store owner topic lower = true.
Proof.
  intros Hle. rewrite !all_retrievable_iff. intros Hall i Hi. apply Hall. lia.
Qed.

(** A missing index anywhere in the range makes the answer false. *)
Lemma all_retrievable_missing (target k : Z) :
  0 <= k <= target -> ~ present k ->
  FeedSpec.all_retrievable store owner topic target = false.
Proof.
  intros Hk Hmiss. apply not_true_is_false. rewrite all_retrievable_iff.
  intros Hall. apply Hmiss, Hall, Hk.
Qed.

(** A false answer comes from an index of the range that is missing. *)
Lemma scan_false_missing (indices : list Z) :
  fst (FeedSpec.scan store owner topic indices) = false ->
  exists i, In i indices /\
    FeedSpec.chunk_exists store (FeedSpec.update_address owner topic i) = false.
Proof.
  induction indices as [|i rest IH]; cbn [FeedSpec.scan]; [discriminate|].
  destruct (FeedSpec.chunk_exists store (FeedSpec.update_address owner topic i))
    eqn:Hi.
  - destruct (FeedSpec.scan store owner topic rest) as [r queried]. cbn [fst] in *.
    intros Hr. destruct (IH Hr) as (j & Hj & Hmiss).
    exists j. split; [now right | exact Hmiss].
  - intros _. exists i. split; [now left | exact Hi].
Qed.

Lemma all_retrievable_false_iff (target : Z) :
  FeedSpec.all_retrievable store owner topic target = false
  <-> exists i, 0 <= i <= target /\
      FeedSpec.chunk_exists store (FeedSpec.update_address owner topic i) = false.
Proof.
  split.
  - intros Hf. apply scan_false_missing in Hf. destruct Hf as (i & Hi & Hmiss).
    exists i. split; [now apply In_indices_up_to | exact Hmiss].
  - intros (i & Hi & Hmiss). apply (all_retrievable_missing target i Hi).
    unfold FeedSpec.present. congruence.
Qed.

(** The queries stop at the first missing index [k]: they are 0, ..., [k]. *)
Lemma queried_first_missing (target k : Z) :
  0 <= k <= target ->
  (forall i, 0 <= i < k -> present i) ->
  ~ present k ->
  FeedSpec.queried store owner topic target = FeedSpec.indices_up_to k.
Proof.
  intros Hk Hbefore Hmiss. unfold FeedSpec.queried.
  destruct (indices_up_to_split k target Hk) as [rest ->].
  rewrite scan_first_missing; [| | exact Hmiss].
  - cbn [snd]. symmetry. apply indices_up_to_succ. lia.
  - intros i Hi. apply In_indices_up_to in Hi. apply Hbefore. lia.
Qed.

End Scan.

(** ** [Bee.is_feed_retrievable] *)

Section IsFeedRetrievable.
Context {C : Collaborators}.
Variables (self : Bee.t) (feed_type : feed_type_arg) (owner topic : bytes_or_str)
  (options : options_arg).

(** Re-raising handler: the [try] statement gives back what its body gives. *)
Lemma try_except_reraise {A} (body : result A) :
  try_except_BeeError body (fun e => Raise e) = body.
Proof.
  destruct body as [a|e]; [reflexivity|].
  unfold try_except_BeeError. destruct (isinstance_BeeError e); reflexivity.
Qed.

(** The branch for an index that Python reads as false: download the latest
    update and answer [True], or let the exception of the failed step out. *)
Lemma is_feed_retrievable_falsy (index : index_arg) :
  index_truthy index = false ->
  Bee.is_feed_retrievable self feed_type owner topic index options
  = (canonical_owner ← make_eth_address owner;
     canonical_topic ← make_topic topic;
     reader ← Bee.__make_feed_reader self BuiltinType canonical_topic
                canonical_owner OptNone;
     _ ← download reader options;
     Ok true).
Proof.
  intros Hf. unfold Bee.is_feed_retrievable.
  returned (make_eth_address owner).
  returned (make_topic topic).
  cbn. rewrite Hf. cbn. apply try_except_reraise.
Qed.

(** The branch for an index that Python reads as true. *)
Lemma is_feed_retrievable_truthy (index : index_arg) :
  index_truthy index = true ->
  Bee.is_feed_retrievable self feed_type owner topic index options
  = (canonical_owner ← make_eth_address owner;
     canonical_topic ← make_topic topic;
     if Bee.ne_SEQUENCE feed_type then Raise BeeError
     else
       request_options ← Bee.__get_request_options_for_call self options;
       are_all_sequential_feeds_update_retrievable canonical_owner canonical_topic
         index request_options).
Proof.
  intros Ht. unfold Bee.is_feed_retrievable.
  returned (make_eth_address owner).
  returned (make_topic topic).
  cbn. rewrite Ht. reflexivity.
Qed.

Lemma falsy_branch_never_false (index : index_arg) :
  index_truthy index = false ->
  Bee.is_feed_retrievable self feed_type owner topic index options <> Ok false.
Proof.
  intros Hf. rewrite (is_feed_retrievable_falsy _ Hf).
  destruct (make_eth_address owner) as [co|]; [|cbn; discriminate].
  destruct (make_topic topic) as [ct|]; [|cbn; discriminate].
  cbn -[Bee.__make_feed_reader].
  destruct (Bee.__make_feed_reader self BuiltinType ct co OptNone) as [reader|];
    [|cbn; discriminate].
  cbn. destruct (download reader options); cbn; discriminate.
Qed.

(** C1, on the code: at the target index 0 the answer is never [False],
    whatever the node holds at index 0: the call downloads the latest update
    and answers [True] or raises. *)
Theorem is_feed_retrievable_index_zero_never_false :
  Bee.is_feed_retrievable self feed_type owner topic (IndexInt 0) options <> Ok false.
Proof. apply falsy_branch_never_false. reflexivity. Qed.

(** C2, on the code: without an index the answer is never [False] either;
    a failed download is not turned into a boolean. *)
Theorem is_feed_retrievable_no_index_never_false :
  Bee.is_feed_retrievable self feed_type owner topic IndexNone options <> Ok false.
Proof. apply falsy_branch_never_false. reflexivity. Qed.

(** Without an index, success of the download gives [True] ... *)
Lemma is_feed_retrievable_latest_success (co ct : bytes_or_str) (reader : FeedReader)
    (update : string) :
  make_eth_address owner = Ok co ->
  make_topic topic = Ok ct ->
  Bee.__make_feed_reader self BuiltinType ct co OptNone = Ok reader ->
  download reader options = Ok update ->
  Bee.is_feed_retrievable self feed_type owner topic IndexNone options = Ok true.
Proof.
  intros Ho Ht Hr Hd. rewrite is_feed_retrievable_falsy by reflexivity.
  rewrite Ho, Ht. cbn -[Bee.__make_feed_reader]. rewrite Hr. cbn.
  rewrite Hd. reflexivity.
Qed.

(** ... and the exception of a failed download reaches the caller, a
    [BeeError] for a missing chunk included. *)
Lemma is_feed_retrievable_latest_failure (co ct : bytes_or_str) (reader : FeedReader)
    (e : exn) :
  make_eth_address owner = Ok co ->
  make_topic topic = Ok ct ->
  Bee.__make_feed_reader self BuiltinType ct co OptNone = Ok reader ->
  download reader options = Raise e ->
  Bee.is_feed_retrievable self feed_type owner topic IndexNone options = Raise e.
Proof.
  intros Ho Ht Hr Hd. rewrite is_feed_retrievable_falsy by reflexivity.
  rewrite Ho, Ht. cbn -[Bee.__make_feed_reader]. rewrite Hr. cbn.
  rewrite Hd. reflexivity.
Qed.

(** An index that Python reads as true, on a feed that is not a sequence
    feed: the call raises the wrapper's [BeeError]. *)
Lemma is_feed_retrievable_not_sequence (index : index_arg) :
  index_truthy index = true ->
  Bee.ne_SEQUENCE feed_type = true ->
  returns (make_eth_address owner) ->
  returns (make_topic topic) ->
  Bee.is_feed_retrievable self feed_type owner topic index options = Raise BeeError.
Proof.
  intros Ht Hne [co Ho] [ct Hct]. rewrite (is_feed_retrievable_truthy _ Ht).
  rewrite Ho, Hct. cbn. rewrite Hne. reflexivity.
Qed.

(** A sequence feed and a target index other than 0, in a call without
    request options of its own: the answer is the prefix scan's, asked with
    the request options of the instance. *)
Lemma is_feed_retrievable_sequence (n : Z) (co ct : bytes_or_str) :
  n <> 0 ->
  Bee.ne_SEQUENCE feed_type = false ->
  options_truthy options = false ->
  make_eth_address owner = Ok co ->
  make_topic topic = Ok ct ->
  Bee.is_feed_retrievable self feed_type owner topic (IndexInt n) options
  = are_all_sequential_feeds_update_retrievable co ct (IndexInt n)
      (CallDefault (Bee.request_options self)).
Proof.
  intros Hn Hseq Hopt Ho Hct. rewrite is_feed_retrievable_truthy.
  - rewrite Ho, Hct. cbn. rewrite Hseq. unfold Bee.__get_request_options_for_call.
    rewrite Hopt. reflexivity.
  - cbn. apply negb_true_iff, Z.eqb_neq, Hn.
Qed.

(** With request options of the call that read as true, merging them with
    the instance's raises [TypeError] and the scan is not asked. *)
Lemma is_feed_retrievable_call_options (index : index_arg) :
  index_truthy index = true ->
  Bee.ne_SEQUENCE feed_type = false ->
  options_truthy options = true ->
  returns (make_eth_address owner) ->
  returns (make_topic topic) ->
  Bee.is_feed_retrievable self feed_type owner topic index options = Raise TypeError.
Proof.
  intros Ht Hseq Hopt [co Ho] [ct Hct]. rewrite (is_feed_retrievable_truthy _ Ht).
  rewrite Ho, Hct. cbn. rewrite Hseq. unfold Bee.__get_request_options_for_call.
  rewrite Hopt. reflexivity.
Qed.

End IsFeedRetrievable.

(** C10. With the index 0 the call behaves as with no index at all: [0] is
    read as false by [if not index], so the branch that downloads the latest
    update runs (canonical owner and topic, a reader built with the builtin
    [type], its [download], then [True], and the exception of the step that
    fails otherwise); that is what the call without an index does, and the
    prefix scan is not consulted: replacing it by any other leaves the result
    unchanged. *)
Theorem is_feed_retrievable_index_zero_as_absent (C : Collaborators) (self : Bee.t)
    (feed_type : feed_type_arg) (owner topic : bytes_or_str) (options : options_arg)
    (scan : bytes_or_str -> bytes_or_str -> index_arg -> call_options -> result bool) :
  @Bee.is_feed_retrievable C self feed_type owner topic (IndexInt 0) options
  = (canonical_owner ← make_eth_address owner;
     canonical_topic ← make_topic topic;
     reader ← Bee.__make_feed_reader self BuiltinType canonical_topic
                canonical_owner OptNone;
     _ ← download reader options;
     Ok true)
  /\ @Bee.is_feed_retrievable C self feed_type owner topic (IndexInt 0) options
     = @Bee.is_feed_retrievable C self feed_type owner topic IndexNone options
  /\ @Bee.is_feed_retrievable (with_scan C scan) self feed_type owner topic
       (IndexInt 0) options
     = @Bee.is_feed_retrievable C self feed_type owner topic (IndexInt 0) options.
Proof.
  split; [|split].
  - apply is_feed_retrievable_falsy. reflexivity.
  - rewrite !is_feed_retrievable_falsy by reflexivity. reflexivity.
  - rewrite !is_feed_retrievable_falsy by reflexivity. reflexivity.
Qed.

(** C7, on the code: on a feed that is not a sequence feed, the index 0 does
    not raise: when the latest update downloads, the answer is [True]. *)
Theorem is_feed_retrievable_epoch_index_zero (C : Collaborators) (self : Bee.t)
    (owner topic co ct : bytes_or_str) (options : options_arg)
    (reader : FeedReader) (update : string) :
  make_eth_address owner = Ok co ->
  make_topic topic = Ok ct ->
  Bee.__make_feed_reader self BuiltinType ct co OptNone = Ok reader ->
  download reader options = Ok update ->
  Bee.is_feed_retrievable self (FtMember EPOCH) owner topic (IndexInt 0) options
  = Ok true.
Proof.
  intros Ho Ht Hr Hd. rewrite is_feed_retrievable_falsy by reflexivity.
  rewrite Ho, Ht. cbn -[Bee.__make_feed_reader]. rewrite Hr. cbn.
  rewrite Hd. reflexivity.
Qed.

Lemma is_feed_retrievable_epoch_index_zero_witness :
  let C := Mock.node Mock.published (Ok "reference") in
  let reader := {| download := fun _ => Ok "reference" |} in
  @make_eth_address C Mock.owner = Ok Mock.owner
  /\ @make_topic C Mock.topic = Ok Mock.topic
  /\ @Bee.__make_feed_reader C Mock.bee BuiltinType Mock.topic Mock.owner OptNone
     = Ok reader
  /\ download reader OptNone = Ok "reference"
  /\ @Bee.is_feed_retrievable C Mock.bee (FtMember EPOCH) Mock.owner Mock.topic
       (IndexInt 0) OptNone
     = Ok true.
Proof.
  intros C reader.
  repeat (split; [reflexivity|]).
  exact (@is_feed_retrievable_epoch_index_zero C Mock.bee Mock.owner Mock.topic
           Mock.owner Mock.topic OptNone reader "reference"
           eq_refl eq_refl eq_refl eq_refl).
Defined.

(** ** The wrapper over the specification's prefix scan *)

Section SequenceFeeds.
Context {C : Collaborators} {P : Primitives}.
Variables (store : gset (list byte)) (raw : bytes_or_str -> list byte).

(** The collaborator scans as the specification says. *)
Hypothesis scan_as_specified : forall owner topic n request_options,
  are_all_sequential_feeds_update_retrievable owner topic (IndexInt n) request_options
  = Ok (FeedSpec.all_retrievable store (raw owner) (raw topic) n).

Variables (self : Bee.t) (owner topic co ct : bytes_or_str) (options : options_arg).
Hypothesis canonical_owner : make_eth_address owner = Ok co.
Hypothesis canonical_topic : make_topic topic = Ok ct.
(** The call has no request options of its own. *)
Hypothesis no_call_options : options_truthy options = false.

Lemma is_feed_retrievable_scan (n : Z) :
  n <> 0 ->
  Bee.is_feed_retrievable self (FtMember SEQUENCE) owner topic (IndexInt n) options
  = Ok (FeedSpec.all_retrievable store (raw co) (raw ct) n).
Proof.
  intros Hn.
  rewrite (is_feed_retrievable_sequence self (FtMember SEQUENCE) owner topic
             options n co ct Hn eq_refl no_call_options canonical_owner
             canonical_topic).
  apply scan_as_specified.
Qed.

(** For a target index from 1 on, the answer is [True] exactly when every
    index from 0 to the target is on the node, and [False] otherwise. *)
Lemma is_feed_retrievable_sequence_iff (n : Z) :
  1 <= n ->
  (Bee.is_feed_retrievable self (FtMember SEQUENCE) owner topic (IndexInt n) options
   = Ok true
   <-> forall i, 0 <= i <= n -> FeedSpec.present store (raw co) (raw ct) i)
  /\ (Bee.is_feed_retrievable self (FtMember SEQUENCE) owner topic (IndexInt n) options
      = Ok false
      <-> exists i, 0 <= i <= n /\
          FeedSpec.chunk_exists store (FeedSpec.update_address (raw co) (raw ct) i)
          = false).
Proof.
  intros Hn. rewrite is_feed_retrievable_scan by lia.
  rewrite <- all_retrievable_iff, <- all_retrievable_false_iff.
  split; (split; [intros [= Heq]; exact Heq | intros ->; reflexivity]).
Qed.

(** Prefix closure above index 0: [True] at [n] gives [True] at every
    target from 1 to [n]. *)
Lemma is_feed_retrievable_monotone (n m : Z) :
  1 <= m <= n ->
  Bee.is_feed_retrievable self (FtMember SEQUENCE) owner topic (IndexInt n) options
  = Ok true ->
  Bee.is_feed_retrievable self (FtMember SEQUENCE) owner topic (IndexInt m) options
  = Ok true.
Proof.
  intros Hm. rewrite !is_feed_retrievable_scan by lia.
  intros [= Hn]. f_equal.
  apply (all_retrievable_prefix store (raw co) (raw ct) n m); [lia | exact Hn].
Qed.

End SequenceFeeds.

(** The test node scans as the specification says. *)
Lemma mock_node_scans_as_specified (store : gset (list byte)) (latest : result string)
    (owner topic : bytes_or_str) (n : Z) (request_options : call_options) :
  @are_all_sequential_feeds_update_retrievable (Mock.node store latest) owner topic
    (IndexInt n) request_options
  = Ok (@FeedSpec.all_retrievable Mock.primitives store (Mock.raw owner)
          (Mock.raw topic) n).
Proof. reflexivity. Qed.

(** ** The scenario of the specification, on the test node *)

Section Scenario.
#[local] Existing Instance Mock.primitives.

Let after_delete : gset (list byte) :=
  Mock.published ∖ {[ FeedSpec.update_address (Mock.raw Mock.owner) (Mock.raw Mock.topic) 1 ]}.

Example scenario_retrievable_2 :
  @Bee.is_feed_retrievable (Mock.node Mock.published (Ok "c")) Mock.bee
    (FtMember SEQUENCE) Mock.owner Mock.topic (IndexInt 2) OptNone
  = Ok true.
Proof. vm_compute. reflexivity. Qed.

Example scenario_broken_chain :
  @Bee.is_feed_retrievable (Mock.node after_delete (Ok "c")) Mock.bee
    (FtMember SEQUENCE) Mock.owner Mock.topic (IndexInt 2) OptNone
  = Ok false.
Proof. vm_compute. reflexivity. Qed.

Example scenario_short_circuit :
  FeedSpec.queried after_delete (Mock.raw Mock.owner) (Mock.raw Mock.topic) 2
  = [ 0; 1 ].
Proof. vm_compute. reflexivity. Qed.

(** On a node that holds nothing, index 0 raises instead of answering
    [False]; index 1 answers [False]. *)
Example empty_node_index_0 :
  @Bee.is_feed_retrievable (Mock.node ∅ (Raise BeeError)) Mock.bee
    (FtMember SEQUENCE) Mock.owner Mock.topic (IndexInt 0) OptNone
  = Raise BeeError.
Proof. vm_compute. reflexivity. Qed.

Example empty_node_index_1 :
  @Bee.is_feed_retrievable (Mock.node ∅ (Raise BeeError)) Mock.bee
    (FtMember SEQUENCE) Mock.owner Mock.topic (IndexInt 1) OptNone
  = Ok false.
Proof. vm_compute. reflexivity. Qed.

Example empty_node_no_index :
  @Bee.is_feed_retrievable (Mock.node ∅ (Raise BeeError)) Mock.bee
    (FtMember SEQUENCE) Mock.owner Mock.topic IndexNone OptNone
  = Raise BeeError.
Proof. vm_compute. reflexivity. Qed.

Example epoch_feed_index_5 :
  @Bee.is_feed_retrievable (Mock.node Mock.published (Ok "c")) Mock.bee
    (FtMember EPOCH) Mock.owner Mock.topic (IndexInt 5) OptNone
  = Raise BeeError.
Proof. vm_compute. reflexivity. Qed.

Example resolve_signer_default_only :
  Bee.___resolve_signer
    {| Bee.url := "http://localhost:1633";
       Bee.signer := Some (SignerObj Mock.alice);
       Bee.request_options := {| retry := None; timeout := None |} |}
    SignerNone
  = Ok (SignerObj Mock.alice).
Proof. reflexivity. Qed.

Example resolve_signer_nothing : Bee.___resolve_signer Mock.bee SignerNone = Raise AttributeError.
Proof. reflexivity. Qed.

End Scenario.

(** * Further properties of the validators and of the wrapper *)

(** ** [assert_request_options] and [assert_feed_type] *)

Section RequestOptions.
Context `{Collaborators}.

Lemma check_non_negative_ok (field : option Z) :
  check_non_negative field = Ok tt <-> forall n, field = Some n -> 0 <= n.
Proof.
  unfold check_non_negative. destruct field as [n|].
  - destruct (Z.eqb_spec n 0) as [->|Hn0]; cbn.
    + split; [intros _ m [= <-]; lia | reflexivity].
    + destruct (Z.ltb_spec n 0) as [Hneg|Hpos].
      * split; [discriminate | intros Hall; specialize (Hall n eq_refl); lia].
      * split; [intros _ m [= <-]; exact Hpos | reflexivity].
  - split; [intros _ n; discriminate | reflexivity].
Qed.

Lemma check_non_negative_cases (field : option Z) :
  check_non_negative field = Ok tt \/ check_non_negative field = Raise BeeArgumentError.
Proof.
  unfold check_non_negative. destruct field as [n|]; [|now left].
  destruct (negb (n =? 0) && (n <? 0)); [now right | now left].
Qed.

(** X1. A [BeeRequestOptions] object passes [assert_request_options]
    exactly when each of [retry] and [timeout] is unset or not negative
    (0 included); every rejection is a [BeeArgumentError]. *)
Theorem assert_request_options_model (o : BeeRequestOptions) :
  (assert_request_options (OptModel o) = Ok tt
   <-> (forall n, retry o = Some n -> 0 <= n)
       /\ (forall n, timeout o = Some n -> 0 <= n))
  /\ (assert_request_options (OptModel o) = Ok tt
      \/ assert_request_options (OptModel o) = Raise BeeArgumentError).
Proof.
  unfold assert_request_options.
  pose proof (check_non_negative_ok (retry o)) as Hr.
  pose proof (check_non_negative_ok (timeout o)) as Ht.
  destruct (check_non_negative_cases (retry o)) as [Er|Er]; rewrite Er in *; cbn.
  - destruct (check_non_negative_cases (timeout o)) as [Et|Et]; rewrite Et in *.
    + split; [|now left]. split; [intros _ | reflexivity].
      split; [now apply Hr | now apply Ht].
    + split; [|now right]. split; [discriminate|].
      intros [_ Hall]. apply Ht in Hall. discriminate.
  - split; [|now right]. split; [discriminate|].
    intros [Hall _]. apply Hr in Hall. discriminate.
Qed.

(** X2. [assert_feed_type] accepts a string exactly when it is
    ["sequence"] or ["epoch"], and a member of [FeedType] exactly when the
    members are strings; every rejection is a [TypeError]. *)
Theorem assert_feed_type_accepts :
  (forall s, assert_feed_type (FtStr s) = Ok tt <-> s = "sequence" \/ s = "epoch")
  /\ (forall m, assert_feed_type (FtMember m) = Ok tt <-> FeedType_is_str = true)
  /\ (forall feed_type,
        assert_feed_type feed_type = Ok tt
        \/ assert_feed_type feed_type = Raise TypeError).
Proof.
  split; [|split].
  - intros s. unfold assert_feed_type, is_feed_type. cbn [map existsb FeedType_value].
    destruct (String.eqb_spec s "sequence") as [->|Hs]; cbn.
    + split; [now left | reflexivity].
    + destruct (String.eqb_spec s "epoch") as [->|He]; cbn.
      * split; [now right | reflexivity].
      * split; [discriminate | intros [?|?]; contradiction].
  - intros m. unfold assert_feed_type, is_feed_type.
    destruct FeedType_is_str; destruct m; cbn;
      (split; [reflexivity || discriminate | reflexivity || discriminate]).
  - intros feed_type. unfold assert_feed_type.
    destruct (is_feed_type feed_type); cbn; [now left | now right].
Qed.

End RequestOptions.

(** ** [make_tag_uid] and [Bee.update_tag] *)

Section TagUid.
Context `{Collaborators} `{Services}.

(** X3. For an [int] argument [make_tag_uid] returns the uid exactly when it
    is positive: 0 is read as a missing uid and raises [TypeError], a
    negative uid raises the [ValueError] of [assert_non_negative_integer]. *)
Theorem make_tag_uid_int (n : Z) :
  (0 < n -> UtilsType.make_tag_uid (UidValue (VInt n)) = Ok n)
  /\ (n = 0 -> UtilsType.make_tag_uid (UidValue (VInt n)) = Raise TypeError)
  /\ (n < 0 -> UtilsType.make_tag_uid (UidValue (VInt n)) = Raise ValueError).
Proof.
  unfold UtilsType.make_tag_uid, UtilsType.assert_non_negative_integer. cbn.
  destruct (Z.eqb_spec n 0) as [->|Hn0]; cbn.
  - repeat split; intros; try lia; reflexivity.
  - destruct (Z.ltb_spec n 0) as [Hneg|Hpos]; cbn;
      repeat split; intros; try lia; reflexivity.
Qed.


(** A [Tag] object is not checked: its uid is returned as it is. *)
Lemma make_tag_uid_tag (t : Tag) : UtilsType.make_tag_uid (UidTag t) = Ok (uid t).
Proof. reflexivity. Qed.


End TagUid.

Lemma make_tag_uid_int_witness :
  @UtilsType.make_tag_uid MockServices.services (UidValue (VInt 7)) = Ok 7
  /\ @UtilsType.make_tag_uid MockServices.services (UidValue (VInt 0)) = Raise TypeError
  /\ @UtilsType.make_tag_uid MockServices.services (UidValue (VInt (-7)))
     = Raise ValueError.
Proof.
  pose proof (@make_tag_uid_int MockServices.services 7) as (Hpos & _ & _).
  pose proof (@make_tag_uid_int MockServices.services 0) as (_ & Hzero & _).
  pose proof (@make_tag_uid_int MockServices.services (-7)) as (_ & _ & Hneg).
  split; [apply Hpos; lia|]. split; [apply Hzero; reflexivity | apply Hneg; lia].
Defined.

Example make_tag_uid_str_zero :
  @UtilsType.make_tag_uid MockServices.services (UidValue (VStr "0")) = Ok 0.
Proof. reflexivity. Qed.

Example make_tag_uid_str_negative :
  @UtilsType.make_tag_uid MockServices.services (UidValue (VStr "-7")) = Raise TypeError.
Proof. reflexivity. Qed.

Example make_tag_uid_str_not_a_number :
  @UtilsType.make_tag_uid MockServices.services (UidValue (VStr "seven")) = Raise TypeError.
Proof. reflexivity. Qed.


(** ** References, ENS names and CIDs *)

Section References.
Context `{Collaborators} `{Services}.

(** [assert_reference] tries the encrypted length only after a
    [TypeError] at the plain length. *)
Lemma assert_reference_ok (value : py_value) :
  UtilsType.assert_reference value = Ok tt
  <-> assert_hex_string value (Some REFERENCE_HEX_LENGTH) = Ok tt
      \/ (assert_hex_string value (Some REFERENCE_HEX_LENGTH) = Raise TypeError
          /\ assert_hex_string value (Some ENCRYPTED_REFERENCE_HEX_LENGTH) = Ok tt).
Proof.
  unfold UtilsType.assert_reference, UtilsType.try_except_TypeError.
  destruct (assert_hex_string value (Some REFERENCE_HEX_LENGTH)) as [[]|e].
  - split; [now left | reflexivity].
  - destruct e; (split; [intros Hok | intros [Hf | [Hf Hok]]]);
      try discriminate; try (right; split; [reflexivity | exact Hok]); try exact Hok.
Qed.

(** X6. [assert_reference_or_ens] accepts a value only when it is a string
    that [is_valid_ens_name] accepts: a hexadecimal reference is checked by
    [assert_reference] and then still has to be a valid ENS name.  Every
    other string is rejected with [TypeError] or with what [assert_reference]
    raised. *)
Theorem assert_reference_or_ens_accepts (value : py_value) :
  UtilsType.assert_reference_or_ens value = Ok tt
  <-> exists s, value = VStr s
      /\ (is_hex_string value = true -> UtilsType.assert_reference value = Ok tt)
      /\ is_valid_ens_name s = true.
Proof.
  unfold UtilsType.assert_reference_or_ens. split.
  - destruct value as [| | |s| |]; try discriminate.
    intros Hok. exists s. split; [reflexivity|].
    destruct (is_hex_string (VStr s)).
    + destruct (UtilsType.assert_reference (VStr s)) as [[]|e]; [|discriminate].
      cbn in Hok. destruct (is_valid_ens_name s); [|discriminate]. now split.
    + cbn in Hok. destruct (is_valid_ens_name s); [|discriminate].
      split; [discriminate | reflexivity].
  - intros (s & -> & Hhex & Hens).
    destruct (is_hex_string (VStr s)).
    + rewrite (Hhex eq_refl). cbn. rewrite Hens. reflexivity.
    + cbn. rewrite Hens. reflexivity.
Qed.

(** X7. [make_reference_or_ens] returns a reference exactly when
    [decode_cid] decodes the string to a CID of the expected type, and then
    it is the decoded reference: the value itself is never returned as a
    plain reference or ENS name. *)
Theorem make_reference_or_ens_returns (value : py_value) (expected : ReferenceType)
    (reference : string) :
  UtilsType.make_reference_or_ens value expected = Ok reference
  <-> exists s decoded,
        value = VStr s
        /\ decode_cid s = Ok decoded
        /\ cid_type decoded = Some expected
        /\ cid_reference decoded = reference.
Proof.
  unfold UtilsType.make_reference_or_ens. split.
  - destruct value as [| | |s| |]; try discriminate.
    rewrite try_except_reraise.
    destruct (decode_cid s) as [decoded|e] eqn:Hd; [|discriminate]. cbn.
    case_bool_decide as Hty; [discriminate|].
    intros [= <-]. exists s, decoded. repeat split; assumption.
  - intros (s & decoded & -> & Hd & Hty & <-).
    rewrite try_except_reraise, Hd. cbn.
    rewrite bool_decide_false by (intros Hne; contradiction). reflexivity.
Qed.



End References.


(** A plain hexadecimal reference is not a CID: [download_file] raises what
    [decode_cid] raises for it. *)
Example download_file_plain_reference :
  @BeeMethods.download_file MockServices.services Mock.bee
    (VStr (String.string_of_list_ascii (repeat (Ascii.ascii_of_nat 97) 64)))
    "" OptNone
  = Raise ValueError.
Proof. vm_compute. reflexivity. Qed.

(** ** [Bee.is_connected] and [Bee.pss_send] *)

Section Connection.
Context `{Collaborators} `{Services}.


(** [check_connection] hands the node's answer on. *)
Lemma check_connection_answer (self : Bee.t) (options : options_arg) :
  assert_request_options options = Ok tt ->
  options_truthy options = false ->
  BeeMethods.check_connection self options
  = status_api_check_connection (CallDefault (Bee.request_options self)).
Proof.
  intros Hopt Hfalsy.
  unfold BeeMethods.check_connection, Bee.__get_request_options_for_call.
  rewrite Hopt, Hfalsy. reflexivity.
Qed.

(** X10. [pss_send] sends only a topic that is at once an instance of
    [Topic] and of [str] (the test joins the two negations with [or]): a
    topic in [bytes] is never sent. *)
Theorem pss_send_returns (self : Bee.t) (postage_batch_id target : string)
    (topic data recipient : py_value) (options : options_arg) :
  returns (BeeMethods.pss_send self postage_batch_id topic target data recipient options) ->
  isinstance_Topic topic = true /\ exists s, topic = VStr s.
Proof.
  unfold BeeMethods.pss_send. intros [[] Hok].
  destruct (assert_request_options options); [|cbn in Hok; discriminate Hok].
  cbn in Hok.
  destruct (isinstance_Topic topic); [|cbn in Hok; discriminate Hok].
  split; [reflexivity|].
  destruct topic as [| | |s| |]; cbn in Hok; try discriminate Hok.
  now exists s.
Qed.

Lemma pss_send_bytes_topic (self : Bee.t) (postage_batch_id target : string)
    (b : list byte) (data recipient : py_value) (options : options_arg) :
  assert_request_options options = Ok tt ->
  BeeMethods.pss_send self postage_batch_id (VBytes b) target data recipient options
  = Raise TypeError.
Proof.
  intros Hopt. unfold BeeMethods.pss_send. rewrite Hopt. cbn.
  rewrite orb_true_r. reflexivity.
Qed.

End Connection.


Lemma pss_send_returns_witness :
  let C := Mock.node ∅ (Ok "reference") in
  let S := MockServices.services in
  returns (@BeeMethods.pss_send C S Mock.bee "batch" (VStr "topic") "0a" (VStr "hello")
             VNone OptNone)
  /\ @isinstance_Topic S (VStr "topic") = true
  /\ exists s, VStr "topic" = VStr s.
Proof.
  intros C S.
  assert (Hret : returns (@BeeMethods.pss_send C S Mock.bee "batch" (VStr "topic") "0a"
                            (VStr "hello") VNone OptNone))
    by (exists tt; reflexivity).
  split; [exact Hret|].
  exact (@pss_send_returns C S Mock.bee "batch" "0a" (VStr "topic") (VStr "hello")
           VNone OptNone Hret).
Defined.

(** ** The JSON feeds and the SOC writer *)

Section JsonFeeds.
Context `{Collaborators} `{Services}.

(** X11. [set_json_feed] never returns: whatever the arguments and the
    node, it raises, at the latest in [make_feed_writer]. *)
Theorem set_json_feed_never_returns (self : Bee.t) (postage_batch_id : string)
    (topic : bytes_or_str) (data : string) (options : json_options_arg)
    (request_options : options_arg) :
  ~ returns (BeeMethods.set_json_feed self postage_batch_id topic data options
               request_options).
Proof.
  intros [r Hr]. unfold BeeMethods.set_json_feed in Hr.
  returned (assert_request_options (BeeMethods.json_request_options options)).
  returned (BeeMethods.make_feed_topic self topic).
  returned (BeeMethods.json_field json_type options).
  returned (BeeMethods.json_field json_signer options).
  cbn -[Bee.make_feed_writer] in Hr.
  match type of Hr with
  | context [Bee.make_feed_writer ?s ?ft ?t ?sg ?o] =>
      pose proof (make_feed_writer_never_returns s ft t sg o) as Hnever;
      destruct (Bee.make_feed_writer s ft t sg o) as [w|e]
  end.
  - apply Hnever. now exists w.
  - discriminate Hr.
Qed.

(** X12. [get_json_feed] never returns either: it raises, at the latest in
    [make_feed_reader]. *)
Theorem get_json_feed_never_returns (self : Bee.t) (topic : bytes_or_str)
    (options : json_options_arg) :
  ~ returns (BeeMethods.get_json_feed self topic options).
Proof.
  intros [r Hr]. unfold BeeMethods.get_json_feed in Hr.
  returned (assert_request_options (BeeMethods.json_request_options options)).
  returned (BeeMethods.make_feed_topic self topic).
  returned (BeeMethods.json_field json_type options).
  cbn -[Bee.make_feed_reader Bee.___resolve_signer] in Hr.
  match type of Hr with
  | context [match ?x with JsonModel o => json_singer o | _ => _ end] =>
      destruct x as [|o|d|]; try discriminate Hr
  end.
  destruct (json_singer o) as [singer|e]; [|discriminate Hr].
  cbn -[Bee.make_feed_reader Bee.___resolve_signer] in Hr.
  destruct (signer_truthy singer && BeeMethods.address_truthy (json_address o));
    [discriminate Hr|].
  match type of Hr with
  | context [mbind _ ?m] =>
      match m with
      | context [make_eth_address] => destruct m as [addr|e]; [|discriminate Hr]
      end
  end.
  cbn -[Bee.make_feed_reader] in Hr.
  match type of Hr with
  | context [Bee.make_feed_reader ?s ?ft ?t ?sg ?op] =>
      pose proof (make_feed_reader_never_returns s ft t sg op) as Hnever;
      destruct (Bee.make_feed_reader s ft t sg op) as [rd|e]
  end.
  - apply Hnever. now exists rd.
  - discriminate Hr.
Qed.

End JsonFeeds.

Section SocWriter.
Context `{Collaborators} `{Services}.

(** X13. [make_soc_writer] returns a writer only when no signer is passed
    and the instance's default signer is a [Signer] object; the writer's
    owner is then the hex form of that signer's address.  A signer passed to
    the call makes it raise [ValueError]. *)
Theorem make_soc_writer_returns (self : Bee.t) (signer : signer_arg)
    (options : options_arg) (writer : SOCWriter) :
  BeeMethods.make_soc_writer self signer options = Ok writer ->
  signer_truthy signer = false
  /\ exists default canonical_owner,
       Bee.signer self = Some (SignerObj default)
       /\ make_eth_address (Bytes (address default)) = Ok canonical_owner
       /\ make_hex_eth_address canonical_owner = Ok (soc_owner writer).
Proof.
  unfold BeeMethods.make_soc_writer. intros Hok.
  destruct (assert_request_options options) as [[]|e] eqn:Hopt;
    [|cbn in Hok; discriminate Hok].
  cbn -[Bee.___resolve_signer BeeMethods.make_soc_reader] in Hok.
  destruct (signer_truthy signer) eqn:Hs.
  { rewrite (resolve_signer_truthy_raises self signer Hs) in Hok. discriminate Hok. }
  split; [reflexivity|].
  unfold Bee.___resolve_signer in Hok. rewrite Hs in Hok.
  destruct (Bee.signer self) as [d|] eqn:Hd.
  - rewrite (get_signer_set _ _ Hd) in Hok.
    cbn -[BeeMethods.make_soc_reader] in Hok.
    destruct d as [|default|b|str]; cbn -[BeeMethods.make_soc_reader] in Hok;
      try discriminate Hok.
    2:{ destruct (negb (py_len b =? 0)); discriminate Hok. }
    2:{ destruct (negb (String.eqb str "")); discriminate Hok. }
    unfold BeeMethods.make_soc_reader in Hok. rewrite Hopt in Hok. cbn in Hok.
    destruct (make_eth_address (Bytes (address default))) as [co|e] eqn:Hco;
      [|discriminate Hok].
    cbn in Hok.
    destruct (make_hex_eth_address co) as [hex|e] eqn:Hhex; [|discriminate Hok].
    cbn in Hok. injection Hok as <-. cbn.
    exists default, co. repeat split; assumption.
  - rewrite (get_signer_unset _ Hd) in Hok. discriminate Hok.
Qed.

Lemma make_soc_writer_explicit_signer (self : Bee.t) (signer : signer_arg)
    (options : options_arg) :
  assert_request_options options = Ok tt ->
  signer_truthy signer = true ->
  BeeMethods.make_soc_writer self signer options = Raise ValueError.
Proof.
  intros Hopt Hs. unfold BeeMethods.make_soc_writer. rewrite Hopt.
  cbn -[Bee.___resolve_signer].
  rewrite (resolve_signer_truthy_raises self signer Hs). reflexivity.
Qed.

End SocWriter.

Lemma make_soc_writer_returns_witness :
  let C := Mock.node ∅ (Ok "reference") in
  let S := MockServices.services in
  exists writer,
    @BeeMethods.make_soc_writer C S MockServices.bee_with_signer SignerNone OptNone
    = Ok writer
    /\ soc_owner writer = Bytes (address Mock.alice)
    /\ signer_truthy SignerNone = false.
Proof.
  intros C S.
  eexists. split; [reflexivity|]. split; [reflexivity|].
  exact (proj1 (@make_soc_writer_returns C S MockServices.bee_with_signer SignerNone
                  OptNone _ eq_refl)).
Defined.

(** ** Option objects and dictionaries *)

Section OptionObjects.
Context `{Collaborators} `{Services}.

Lemma check_int_field_ok (field : py_value) (not_int negative : exn) :
  UtilsType.check_int_field field not_int negative = Ok tt <-> field_passes field.
Proof.
  unfold UtilsType.check_int_field, field_passes.
  destruct field as [|[]|n|s|b|[]]; cbn.
  - split; [now left | reflexivity].
  - split; [intros _; right; now left | reflexivity].
  - split; [now left | reflexivity].
  - destruct (Z.eqb_spec n 0) as [->|Hn0]; cbn.
    + split; [now left | reflexivity].
    + destruct (Z.ltb_spec n 0) as [Hneg|Hpos].
      * split; [discriminate|].
        intros [Hf | [Hf | (m & [= <-] & Hm)]]; try discriminate. lia.
      * split; [|reflexivity]. intros _. right. right. exists n. split; [reflexivity | lia].
  - destruct (String.eqb s ""); cbn.
    + split; [now left | reflexivity].
    + split; [discriminate|].
      intros [Hf | [Hf | (m & Hm & _)]]; discriminate.
  - destruct (py_len b =? 0); cbn.
    + split; [now left | reflexivity].
    + split; [discriminate|].
      intros [Hf | [Hf | (m & Hm & _)]]; discriminate.
  - split; [discriminate|].
    intros [Hf | [Hf | (m & Hm & _)]]; discriminate.
  - split; [now left | reflexivity].
Qed.

(** X15. [assert_transaction_options] (and its alias
    [assert_cashout_options]) accepts [None], and otherwise only an object
    whose class derives from [BeeRequestOptions], whose request options pass
    and whose gas price and gas limit are unset or not negative.  A [dict] is
    never accepted: after the validation of its request options, reading
    [gas_price] from it raises [AttributeError]. *)
Theorem assert_transaction_options_accepts (value : transaction_options_arg) :
  (UtilsType.assert_cashout_options value = Ok tt
   <-> value = TxNone
       \/ exists o,
            value = TxModel o
            /\ TransactionOptions_is_request_options = true
            /\ assert_request_options (OptModel (transaction_request o)) = Ok tt
            /\ field_passes (gas_price o)
            /\ field_passes (gas_limit o))
  /\ (forall d, value = TxDict d ->
        assert_request_options (OptDict d) = Ok tt ->
        UtilsType.assert_transaction_options value = Raise AttributeError).
Proof.
  unfold UtilsType.assert_cashout_options, UtilsType.assert_transaction_options.
  split.
  - destruct value as [|o|d|]; cbn -[assert_request_options].
    + split; [now left | reflexivity].
    + destruct TransactionOptions_is_request_options.
      * destruct (assert_request_options (OptModel (transaction_request o)))
          as [[]|e] eqn:Hopt; cbn -[assert_request_options].
        -- pose proof (check_int_field_ok (gas_price o) ValueError ValueError) as Hp.
           pose proof (check_int_field_ok (gas_limit o) ValueError ValueError) as Hl.
           destruct (UtilsType.check_int_field (gas_price o) ValueError ValueError)
             as [[]|e]; cbn.
           ++ split.
              ** intros Hok. right. exists o.
                 split; [reflexivity|]. split; [reflexivity|].
                 split; [exact Hopt|]. split; [now apply Hp | now apply Hl].
              ** intros [Hf | (o' & [= <-] & _ & _ & _ & Hlim)]; [discriminate|].
                 now apply Hl.
           ++ split; [discriminate|].
              intros [Hf | (o' & [= <-] & _ & _ & Hpr & _)]; [discriminate|].
              apply Hp in Hpr. discriminate.
        -- split; [discriminate|].
           intros [Hf | (o' & [= <-] & _ & Hok & _)]; [discriminate | congruence].
      * cbn. split; [discriminate|].
        intros [Hf | (o' & _ & Hcls & _)]; discriminate.
    + destruct (assert_request_options (OptDict d)) as [[]|e]; cbn;
        (split; [discriminate | intros [Hf | (o & Hf & _)]; discriminate]).
    + cbn. split; [discriminate | intros [Hf | (o & Hf & _)]; discriminate].
  - intros d -> Hopt. cbn -[assert_request_options]. rewrite Hopt. reflexivity.
Qed.

(** X16. A [dict] passes [assert_file_upload_options] only without a
    ["size"] or with the size 0: an integer size that is not zero raises
    [TypeError] (the test asks whether the size is an [int], not whether it
    is not). *)
Theorem assert_file_upload_options_dict (d : list (string * Z)) :
  (UtilsType.assert_file_upload_options (OptDict d) = Ok tt ->
   dict_get "size" d = None \/ dict_get "size" d = Some 0)
  /\ (forall n, dict_get "size" d = Some n -> n <> 0 ->
        assert_upload_options (OptDict d) = Ok tt ->
        UtilsType.assert_file_upload_options (OptDict d) = Raise TypeError).
Proof.
  unfold UtilsType.assert_file_upload_options. split.
  - destruct (assert_upload_options (OptDict d)) as [[]|e]; [|discriminate].
    cbn. destruct (dict_get "size" d) as [n|]; [|now left].
    destruct (Z.eqb_spec n 0) as [->|Hn]; cbn; [now right | discriminate].
  - intros n Hsize Hn Hup. rewrite Hup, Hsize. cbn.
    destruct (Z.eqb_spec n 0) as [->|_]; [contradiction | reflexivity].
Qed.

(** X17. [assert_collection_upload_options] never accepts [None] or a
    [dict]: when the upload options pass, reading [index_document] from the
    caller's value raises [AttributeError]. *)
Theorem assert_collection_upload_options_dict (value : options_arg) :
  (value = OptNone \/ exists d, value = OptDict d) ->
  ~ returns (UtilsType.assert_collection_upload_options value)
  /\ (assert_upload_options value = Ok tt ->
      UtilsType.assert_collection_upload_options value = Raise AttributeError).
Proof.
  intros Hv. unfold UtilsType.assert_collection_upload_options. split.
  - intros [[] Hok].
    destruct (assert_upload_options value) as [[]|e]; [|discriminate Hok].
    destruct Hv as [-> | [d ->]]; discriminate Hok.
  - intros Hup. rewrite Hup. destruct Hv as [-> | [d ->]]; reflexivity.
Qed.

End OptionObjects.

Lemma assert_transaction_options_accepts_witness :
  let C := Mock.node ∅ (Ok "reference") in
  let S := MockServices.services in
  @assert_request_options C (OptDict [ ("gasPrice", 5) ]) = Ok tt
  /\ @UtilsType.assert_transaction_options C S (TxDict [ ("gasPrice", 5) ])
     = Raise AttributeError
  /\ @UtilsType.assert_cashout_options C S
       (TxModel {| gas_price := VInt 5; gas_limit := VNone;
                   transaction_request := {| retry := None; timeout := Some 30 |} |})
     = Ok tt.
Proof.
  intros C S.
  pose proof (@assert_transaction_options_accepts C S (TxDict [ ("gasPrice", 5) ]))
    as [_ Hdict].
  split; [reflexivity|]. split; [|reflexivity].
  exact (Hdict [ ("gasPrice", 5) ] eq_refl eq_refl).
Defined.

Lemma assert_file_upload_options_dict_witness :
  let C := Mock.node ∅ (Ok "reference") in
  let S := MockServices.services in
  dict_get "size" [ ("size", 1024) ] = Some 1024
  /\ 1024 <> 0
  /\ @assert_upload_options C (OptDict [ ("size", 1024) ]) = Ok tt
  /\ @UtilsType.assert_file_upload_options C S (OptDict [ ("size", 1024) ])
     = Raise TypeError
  /\ @UtilsType.assert_file_upload_options C S (OptDict [ ("tag", 3) ]) = Ok tt.
Proof.
  intros C S.
  pose proof (@assert_file_upload_options_dict C S [ ("size", 1024) ]) as [_ Hsize].
  split; [reflexivity|]. split; [lia|]. split; [reflexivity|]. split; [|reflexivity].
  apply (Hsize 1024); [reflexivity | lia | reflexivity].
Defined.

Lemma assert_collection_upload_options_dict_witness :
  let C := Mock.node ∅ (Ok "reference") in
  let S := MockServices.services in
  @assert_upload_options C (OptDict [ ("tag", 3) ]) = Ok tt
  /\ @UtilsType.assert_collection_upload_options C S (OptDict [ ("tag", 3) ])
     = Raise AttributeError.
Proof.
  intros C S.
  pose proof (@assert_collection_upload_options_dict C S (OptDict [ ("tag", 3) ])
                (or_intror (ex_intro _ [ ("tag", 3) ] eq_refl))) as [_ Hattr].
  split; [reflexivity|]. exact (Hattr eq_refl).
Defined.
